(** * SmartPOS: the double-entry accounting service

    A shallow embedding of [server/accounting.ts] (class [AccountingService]),
    of the three accounting tables of [shared/schema.ts] and of the
    accounting routes that call the service, with the properties of the
    ledger engine proved about it.

    Conventions of the embedding.

    - The database handle [db] is a value of type [Db]; every service method
      becomes a function from the store before the call to a result and the
      store after it.  A method that throws keeps the writes it made before
      throwing: the source opens no transaction.
    - The tables are those of [shared/schema.ts]: primary keys drawn from a
      sequence, [code] and [entry_number] unique.  A post is also subject to
      the column types ([integer], [decimal(15,2)]) and, on a database set
      up from [migrations/0000_initial_schema.sql], to the CHECK on ledger
      lines and the foreign keys of the journal and the ledger; the argument
      [sch] of the posting functions says which database it is.
    - A monetary amount is a decimal string with two places in the source
      ("116.00"); it is carried here as the integer number of cents it
      denotes, which is what the DECIMAL columns hold.  Where the source
      turns amounts into numbers to test that an entry balances, they are
      the binary64 numbers of the source ([float]).  The totals that
      [getAccountBalance] and the statements report are carried as the
      exact sums of the columns.
    - A JavaScript number that holds an identifier or a count is the
      integer it holds ([Js.number], which has the rounding of binary64).
    - A [Date] is the [Z] of its milliseconds since the epoch; the reading
      of the clock during a call is the argument [now]. *)

From Stdlib Require Import ZArith NArith List Bool Lia.
From Stdlib Require Import Ascii String.
From Stdlib Require Import DecimalString DecimalPos DecimalN.
From Stdlib Require Import Floats.
From Stdlib Require Import Sorting.Sorted Sorting.Permutation.
Import ListNotations.

Set Warnings "-inexact-float".

Local Open Scope string_scope.
Local Open Scope Z_scope.

(** ** JavaScript primitives used by the service *)

Module Js.

(** The decimal digits of a natural number. *)
Definition digits (n : N) : string :=
  NilEmpty.string_of_uint (N.to_uint n).

(** A number that holds an integer: [NaN], an infinity, or an integer
    that is a double. *)
Inductive number : Type :=
| NaN
| Infinity (negative : bool)
| Num (z : Z).

(** The number value of an integer: the double nearest to it, a tie going
    to the even significand, and an infinity past the largest double.
    Every integer up to 2^53 in absolute value is a double. *)
Definition to_number (z : Z) : number :=
  let a := Z.abs z in
  let k := Z.log2 a - 52 in
  if k <=? 0 then Num z
  else
    let q := a / 2 ^ k in
    let r := a mod 2 ^ k in
    let half := 2 ^ (k - 1) in
    let q' := if (half <? r) || ((r =? half) && Z.odd q) then q + 1 else q in
    if 2 ^ 1024 <=? q' * 2 ^ k then Infinity (z <? 0)
    else Num (Z.sgn z * (q' * 2 ^ k)).

(** [x + 1]. *)
Definition succ (x : number) : number :=
  match x with
  | Num z => to_number (z + 1)
  | _ => x
  end.

(** The integer [v] reads back as the double [a]: it lies within half a
    step of [a], the bounds included when the significand of [a] is even.
    The step below a power of two is half the step above it. *)
Definition reads_back (a v : Z) : bool :=
  let k := Z.log2 a - 52 in
  let m := a / 2 ^ k in
  let above := 2 * 2 ^ k in
  let below := if m =? 2 ^ 52 then 2 ^ k else 2 * 2 ^ k in
  if Z.even m
  then (4 * a - below <=? 4 * v) && (4 * v <=? 4 * a + above)
  else (4 * a - below <? 4 * v) && (4 * v <? 4 * a + above).

(** The multiple of [p] nearest to [a] among those that read back as [a]. *)
Definition nearest_multiple (a p : Z) : option Z :=
  let lo := a / p * p in
  let hi := lo + p in
  match reads_back a lo, reads_back a hi with
  | true, true =>
      if a - lo <? hi - a then Some lo
      else if hi - a <? a - lo then Some hi
      else if Z.even (lo / p) then Some lo else Some hi
  | true, false => Some lo
  | false, true => Some hi
  | false, false => None
  end.

(** The integer with the fewest significant digits that reads back as
    [a]; [best] is a multiple of the power of ten [p] that does. *)
Fixpoint shortest (fuel : nat) (a p best : Z) : Z :=
  match fuel with
  | O => best
  | S fuel' =>
      match nearest_multiple a (10 * p) with
      | Some v => shortest fuel' a (10 * p) v
      | None => best
      end
  end.

Fixpoint strip_zeros (rev_digits : list ascii) : list ascii :=
  match rev_digits with
  | c :: rest => if Ascii.eqb c "0" then strip_zeros rest else rev_digits
  | [] => []
  end.

(** The digits [d1 d2 ... dn] of an integer written [d1.d2...dk e+(n-1)],
    without the zeros at the end. *)
Definition exponent_form (s : string) : string :=
  match rev (strip_zeros (rev (list_ascii_of_string s))) with
  | [] => s
  | [c] => String c "e+" ++ digits (N.of_nat (String.length s - 1))
  | c :: rest =>
      String c ("." ++ string_of_list_ascii rest) ++ "e+"
        ++ digits (N.of_nat (String.length s - 1))
  end.

(** [String(a)] for a double that is a non-negative integer: its digits
    up to 2^53; past it the shortest digits that read back as [a], in
    exponent form from 10^21 on. *)
Definition magnitude (a : Z) : string :=
  if a <=? 2 ^ 53 then digits (Z.to_N a)
  else
    let s := digits (Z.to_N (shortest 330 a 1 a)) in
    if (String.length s <=? 21)%nat then s else exponent_form s.

(** [String(x)]. *)
Definition String_ (x : number) : string :=
  match x with
  | NaN => "NaN"
  | Infinity negative => if negative then "-Infinity" else "Infinity"
  | Num z => if z <? 0 then "-" ++ magnitude (- z) else magnitude z
  end.

Fixpoint repeat_char (c : ascii) (n : nat) : string :=
  match n with
  | O => EmptyString
  | S k => String c (repeat_char c k)
  end.

(** [s.padStart(target, c)] for a one-character filler. *)
Definition padStart (target : nat) (c : ascii) (s : string) : string :=
  repeat_char c (target - String.length s) ++ s.

(** [s.split(c)] for a one-character separator. *)
Fixpoint split (c : ascii) (s : string) : list string :=
  match s with
  | EmptyString => [EmptyString]
  | String a s' =>
      if Ascii.eqb a c then EmptyString :: split c s'
      else match split c s' with
           | h :: t => String a h :: t
           | [] => [String a EmptyString]
           end
  end.

(** [x || d] on a possibly undefined string: the empty string is falsy. *)
Definition or_else (x : option string) (d : string) : string :=
  match x with
  | None => d
  | Some EmptyString => d
  | Some s => s
  end.

Definition is_space (c : ascii) : bool :=
  let n := N_of_ascii c in
  ((9 <=? n) && (n <=? 13) || (n =? 32))%N.

Fixpoint skip_spaces (s : string) : string :=
  match s with
  | String c s' => if is_space c then skip_spaces s' else s
  | EmptyString => s
  end.

(** A decimal digit. *)
Definition is_digit (c : ascii) : bool :=
  let n := N_of_ascii c in ((48 <=? n) && (n <=? 57))%N.

(** The value of a character as a digit in the given radix. *)
Definition digit_of (radix : N) (c : ascii) : option N :=
  let n := N_of_ascii c in
  let v :=
    if ((48 <=? n) && (n <=? 57))%N then Some (n - 48)%N
    else if ((97 <=? n) && (n <=? 122))%N then Some (n - 87)%N
    else if ((65 <=? n) && (n <=? 90))%N then Some (n - 55)%N
    else None in
  match v with
  | Some d => if (d <? radix)%N then Some d else None
  | None => None
  end.

(** The longest prefix of digits, read in the radix; [acc] is [None] as
    long as no digit was read. *)
Fixpoint parse_digits (radix : N) (s : string) (acc : option N) : option N :=
  match s with
  | EmptyString => acc
  | String c s' =>
      match digit_of radix c with
      | Some d =>
          parse_digits radix s'
            (Some (radix * match acc with Some a => a | None => 0 end + d)%N)
      | None => acc
      end
  end.

Definition strip_hex_prefix (s : string) : option string :=
  match s with
  | String c0 (String c1 r) =>
      if Ascii.eqb c0 "0" && (Ascii.eqb c1 "x" || Ascii.eqb c1 "X")
      then Some r else None
  | _ => None
  end.

Definition parse_unsigned (s : string) : option N :=
  match strip_hex_prefix s with
  | Some r => parse_digits 16 r None
  | None => parse_digits 10 s None
  end.

(** The number for the digits read, [NaN] when there is none. *)
Definition number_of_digits (negative : bool) (n : option N) : number :=
  match n with
  | None => NaN
  | Some n => to_number (if negative then - Z.of_N n else Z.of_N n)
  end.

(** [parseInt(s)] with no radix argument: leading white space, an optional
    sign, an optional [0x], then digits. *)
Definition parseInt (s : string) : number :=
  match skip_spaces s with
  | EmptyString => NaN
  | String c r =>
      if Ascii.eqb c "-"
      then number_of_digits true (parse_unsigned r)
      else if Ascii.eqb c "+"
      then number_of_digits false (parse_unsigned r)
      else number_of_digits false (parse_unsigned (String c r))
  end.

(** [parseFloat(s)] for the decimal string with two places that denotes
    [cents] hundredths: the double nearest to [cents / 100]. *)
Definition parseFloat (cents : Z) : float :=
  match cents with
  | 0 => 0%float
  | Z.pos p =>
      SF2Prim (SFdiv prec emax (S754_finite false p 0) (S754_finite false 100 0))
  | Z.neg p =>
      SF2Prim (SFdiv prec emax (S754_finite true p 0) (S754_finite false 100 0))
  end.

End Js.

(** ** The accounting tables ([shared/schema.ts]) *)

(** A row of [accounts]. *)
Module Account.
Record t : Type := mk {
  id : Z;
  code : string;
  name : string;
  type : string;
  subtype : option string;
  normalBalance : string;
  description : option string;
  isActive : bool;
  isSystem : bool;
  parentAccountId : option Z;
  createdAt : Z
}.
End Account.

(** [InsertAccount]: a row of [accounts] without [id] and [createdAt];
    the columns that have a default may be left out. *)
Module InsertAccount.
Record t : Type := mk {
  code : string;
  name : string;
  type : string;
  subtype : option string;
  normalBalance : string;
  description : option string;
  isActive : option bool;
  isSystem : option bool;
  parentAccountId : option Z
}.
End InsertAccount.

(** A row of [journal_entries]. *)
Module JournalEntry.
Record t : Type := mk {
  id : Z;
  entryNumber : string;
  entryDate : Z;
  description : string;
  referenceType : option string;
  referenceId : option Z;
  userId : Z;
  status : string;
  notes : option string;
  createdAt : Z;
  updatedAt : Z
}.

(** [.set({ status: s })]: the row with its status column replaced. *)
Definition set_status (s : string) (e : t) : t :=
  mk (id e) (entryNumber e) (entryDate e) (description e) (referenceType e)
     (referenceId e) (userId e) s (notes e) (createdAt e) (updatedAt e).
End JournalEntry.

(** A row of [ledger_entries]; [debit] and [credit] in cents. *)
Module LedgerEntry.
Record t : Type := mk {
  id : Z;
  journalEntryId : Z;
  accountId : Z;
  debit : Z;
  credit : Z;
  description : option string;
  createdAt : Z
}.
End LedgerEntry.

(** One element of [JournalEntryInput.entries]. *)
Module LineInput.
Record t : Type := mk {
  accountId : Z;
  debit : Z;
  credit : Z;
  description : option string
}.
End LineInput.

(** [interface JournalEntryInput]. *)
Module JournalEntryInput.
Record t : Type := mk {
  description : string;
  entryDate : option Z;
  referenceType : option string;
  referenceId : option Z;
  userId : Z;
  notes : option string;
  entries : list LineInput.t
}.
End JournalEntryInput.

(** The store: the three tables in insertion order, each with the next
    value of the sequence behind its [serial] primary key. *)
Record Db : Type := mkDb {
  accounts : list Account.t;
  accounts_id_seq : Z;
  journalEntries : list JournalEntry.t;
  journal_entries_id_seq : Z;
  ledgerEntries : list LedgerEntry.t;
  ledger_entries_id_seq : Z
}.

Definition empty_db : Db := mkDb [] 1 [] 1 [] 1.

(** The database behind [db].  One created from [shared/schema.ts] has the
    tables with their keys and unique columns; one set up from
    [migrations/0000_initial_schema.sql] has in addition the CHECK on
    ledger lines and the foreign keys.  [users] are the ids of the rows of
    [users], which the foreign key of [journal_entries.user_id] refers to;
    the service never writes that table. *)
Record Schema : Type := mkSchema {
  migrated : bool;
  users : list Z
}.

(** The database created from [shared/schema.ts]. *)
Definition shared_schema : Schema := mkSchema false [].

(** ** Calls that may throw, over the store *)

Inductive Error : Type :=
| NotBalanced (totalDebits totalCredits : float)
    (* Error(`Journal entry not balanced. Debits: ..., Credits: ...`) *)
| RequiredAccountsNotFound
    (* Error("Required accounts not found in chart of accounts") *)
| UniqueViolation (constraint : string)
    (* raised by the store on a duplicate [code] or [entry_number] *)
| OutOfRange (type : string)
    (* raised by the store on a value the type of its column cannot hold,
       or when a sequence has no value left *)
| CheckViolation (constraint : string)
    (* raised by the store on a row that fails a CHECK *)
| ForeignKeyViolation (constraint : string).
    (* raised by the store on a reference to a row that does not exist *)

Inductive Outcome (A : Type) : Type :=
| Ok (a : A)
| Throw (e : Error).
Arguments Ok {A} a.
Arguments Throw {A} e.

(** An [async] method: from the store before to an outcome and the store
    after. *)
Definition M (A : Type) : Type := Db -> Outcome A * Db.

Definition ret {A} (a : A) : M A := fun st => (Ok a, st).

Definition throw {A} (e : Error) : M A := fun st => (Throw e, st).

Definition bind {A B} (m : M A) (k : A -> M B) : M B :=
  fun st =>
    match m st with
    | (Ok a, st') => k a st'
    | (Throw e, st') => (Throw e, st')
    end.

Notation "x <- m ;; k" := (bind m (fun x => k))
  (at level 61, m at next level, right associativity).

(** A read-only query. *)
Definition query {A} (f : Db -> A) : M A := fun st => (Ok (f st), st).

(** [for (const x of xs) { await body(x) }]: stops at the first throw. *)
Fixpoint for_each {A} (xs : list A) (body : A -> M unit) : M unit :=
  match xs with
  | [] => ret tt
  | x :: xs' => _ <- body x ;; for_each xs' body
  end.

(** ** Statements the service sends to the store *)

Definition or_default {A} (x : option A) (d : A) : A :=
  match x with Some a => a | None => d end.

(** [db.insert(accounts).values(a).returning()].  The sequence advances even
    when the unique constraint on [code] refuses the row. *)
Definition insert_account (now : Z) (a : InsertAccount.t) : M Account.t :=
  fun st =>
    let row :=
      Account.mk (accounts_id_seq st) (InsertAccount.code a)
        (InsertAccount.name a) (InsertAccount.type a) (InsertAccount.subtype a)
        (InsertAccount.normalBalance a) (InsertAccount.description a)
        (or_default (InsertAccount.isActive a) true)
        (or_default (InsertAccount.isSystem a) false)
        (InsertAccount.parentAccountId a) now in
    if existsb (fun r => String.eqb (Account.code r) (InsertAccount.code a))
         (accounts st)
    then (Throw (UniqueViolation "accounts_code_unique"),
          mkDb (accounts st) (accounts_id_seq st + 1)
            (journalEntries st) (journal_entries_id_seq st)
            (ledgerEntries st) (ledger_entries_id_seq st))
    else (Ok row,
          mkDb (accounts st ++ [row]) (accounts_id_seq st + 1)
            (journalEntries st) (journal_entries_id_seq st)
            (ledgerEntries st) (ledger_entries_id_seq st)).

(** The values [createJournalEntry] hands to
    [db.insert(journalEntries).values(...)]. *)
Record JournalEntryValues : Type := mkJournalEntryValues {
  v_entryNumber : string;
  v_description : string;
  v_entryDate : Z;
  v_referenceType : option string;
  v_referenceId : option Z;
  v_userId : Z;
  v_notes : option string;
  v_status : string
}.

(** A value an [integer] column holds. *)
Definition int4 (z : Z) : bool :=
  (-2147483648 <=? z) && (z <=? 2147483647).

(** An optional value of an [integer] column. *)
Definition int4_or_null (z : option Z) : bool :=
  match z with Some z => int4 z | None => true end.

(** A string a [text] column holds: one without the character of code 0. *)
Fixpoint text (s : string) : bool :=
  match s with
  | EmptyString => true
  | String c s' => negb (Ascii.eqb c "000") && text s'
  end.

(** An optional value of a [text] column. *)
Definition text_or_null (s : option string) : bool :=
  match s with Some s => text s | None => true end.

(** A [Date] a [timestamp] column takes: the service hands a date over as
    [toISOString] writes it, and the store reads the years 1 to 9999. *)
Definition timestamp (t : Z) : bool :=
  (-62135596800000 <=? t) && (t <=? 253402300799999).

(** The type of the first parameter of a statement that is not a value of
    its column, if there is one: the store then refuses the statement
    before running it. *)
Fixpoint refused_parameter (parameters : list (bool * string))
  : option string :=
  match parameters with
  | [] => None
  | (true, _) :: rest => refused_parameter rest
  | (false, type) :: _ => Some type
  end.

(** An amount in cents that a [decimal(15,2)] column holds: fewer than
    fourteen digits before the point. *)
Definition numeric_15_2 (cents : Z) : bool :=
  Z.abs cents <? 1000000000000000.

(** A [serial] sequence has a value left: its last one is 2147483647. *)
Definition has_next (seq : Z) : bool := seq <=? 2147483647.

(** [chk_ledger_entries_debit_credit] of the migration:
    [(debit > 0 AND credit = 0) OR (credit > 0 AND debit = 0)]. *)
Definition chk_ledger_entries_debit_credit (debit credit : Z) : bool :=
  (0 <? debit) && (credit =? 0) || (0 <? credit) && (debit =? 0).

(** The store with the next value of a sequence taken. *)
Definition take_journal_entries_id (st : Db) : Db :=
  mkDb (accounts st) (accounts_id_seq st)
    (journalEntries st) (journal_entries_id_seq st + 1)
    (ledgerEntries st) (ledger_entries_id_seq st).

Definition take_ledger_entries_id (st : Db) : Db :=
  mkDb (accounts st) (accounts_id_seq st)
    (journalEntries st) (journal_entries_id_seq st)
    (ledgerEntries st) (ledger_entries_id_seq st + 1).

(** [db.insert(journalEntries).values(v).returning()]; [created_at] and
    [updated_at] take their default, the clock.  The store refuses the
    statement, before running it, when a parameter is not a value of its
    column; when it runs, the row takes the next id, and the id stays
    taken if the unique constraint on [entry_number] or, on the
    migration's database, the foreign key of [user_id] refuses the row. *)
Definition insert_journal_entry (sch : Schema) (now : Z)
    (v : JournalEntryValues) : M JournalEntry.t :=
  fun st =>
    let row :=
      JournalEntry.mk (journal_entries_id_seq st) (v_entryNumber v)
        (v_entryDate v) (v_description v) (v_referenceType v)
        (v_referenceId v) (v_userId v) (v_status v) (v_notes v) now now in
    match refused_parameter
            [ (text (v_entryNumber v), "text");
              (timestamp (v_entryDate v), "timestamp");
              (text (v_description v), "text");
              (text_or_null (v_referenceType v), "text");
              (int4_or_null (v_referenceId v), "integer");
              (int4 (v_userId v), "integer");
              (text (v_status v), "text");
              (text_or_null (v_notes v), "text") ]
    with
    | Some type => (Throw (OutOfRange type), st)
    | None =>
    if negb (has_next (journal_entries_id_seq st))
    then (Throw (OutOfRange "journal_entries_id_seq"), st)
    else if existsb
              (fun r => String.eqb (JournalEntry.entryNumber r) (v_entryNumber v))
              (journalEntries st)
    then (Throw (UniqueViolation "journal_entries_entry_number_unique"),
          take_journal_entries_id st)
    else if migrated sch && negb (existsb (Z.eqb (v_userId v)) (users sch))
    then (Throw (ForeignKeyViolation "fk_journal_entries_user"),
          take_journal_entries_id st)
    else (Ok row,
          mkDb (accounts st) (accounts_id_seq st)
            (journalEntries st ++ [row]) (journal_entries_id_seq st + 1)
            (ledgerEntries st) (ledger_entries_id_seq st))
    end.

(** [db.insert(ledgerEntries).values({...})].  The store refuses the
    statement, before running it, when an id or the description is not a
    value of its column; when it runs, the row takes the next id, and the
    id stays taken if an amount does not fit [decimal(15,2)] or, on the
    migration's database, the CHECK or a foreign key refuses the row. *)
Definition insert_ledger_entry (sch : Schema) (now : Z)
    (journalEntryId accountId : Z) (debit credit : Z) (description : string)
  : M unit :=
  fun st =>
    let row :=
      LedgerEntry.mk (ledger_entries_id_seq st) journalEntryId accountId
        debit credit (Some description) now in
    match refused_parameter
            [ (int4 journalEntryId, "integer");
              (int4 accountId, "integer");
              (text description, "text") ]
    with
    | Some type => (Throw (OutOfRange type), st)
    | None =>
    if negb (has_next (ledger_entries_id_seq st))
    then (Throw (OutOfRange "ledger_entries_id_seq"), st)
    else if negb (numeric_15_2 debit && numeric_15_2 credit)
    then (Throw (OutOfRange "numeric"), take_ledger_entries_id st)
    else if migrated sch && negb (chk_ledger_entries_debit_credit debit credit)
    then (Throw (CheckViolation "chk_ledger_entries_debit_credit"),
          take_ledger_entries_id st)
    else if migrated sch
            && negb (existsb (fun e => JournalEntry.id e =? journalEntryId)
                       (journalEntries st))
    then (Throw (ForeignKeyViolation "fk_ledger_entries_journal"),
          take_ledger_entries_id st)
    else if migrated sch
            && negb (existsb (fun a => Account.id a =? accountId) (accounts st))
    then (Throw (ForeignKeyViolation "fk_ledger_entries_account"),
          take_ledger_entries_id st)
    else (Ok tt,
          mkDb (accounts st) (accounts_id_seq st)
            (journalEntries st) (journal_entries_id_seq st)
            (ledgerEntries st ++ [row]) (ledger_entries_id_seq st + 1))
    end.

(** [.orderBy(desc(journalEntries.id)).limit(1)]: the row of greatest id. *)
Definition last_by_id (rows : list JournalEntry.t) : option JournalEntry.t :=
  fold_left
    (fun best e =>
       match best with
       | None => Some e
       | Some b => if JournalEntry.id b <? JournalEntry.id e then Some e else Some b
       end)
    rows None.



(** [COALESCE(SUM(col), 0)] over the selected rows. *)
Definition coalesce_sum {A} (col : A -> Z) (rows : list A) : Z :=
  fold_left Z.add (map col rows) 0.

(** [db.update(journalEntries).set({ status }).where(eq(id, i)).returning()]:
    the store after, and the rows that were updated. *)
Definition update_status (i : Z) (s : string) (rows : list JournalEntry.t)
  : list JournalEntry.t :=
  map (fun e => if JournalEntry.id e =? i then JournalEntry.set_status s e else e)
    rows.

(** ** The shapes of the financial statements *)

(** [{ ...account, balance }]: an account with its balance. *)
Module AccountWithBalance.
Record t : Type := mk {
  account : Account.t;
  balance : Z
}.
End AccountWithBalance.

(** [{ accounts, total }]: one section of a statement. *)
Module StatementSection.
Record t : Type := mk {
  accounts : list AccountWithBalance.t;
  total : Z
}.
End StatementSection.

(** The result of [generateProfitAndLoss]. *)
Module ProfitAndLoss.
Record t : Type := mk {
  revenue : StatementSection.t;
  expenses : StatementSection.t;
  netIncome : Z
}.
End ProfitAndLoss.

(** The result of [generateBalanceSheet]. *)
Module BalanceSheet.
Record t : Type := mk {
  assets : StatementSection.t;
  liabilities : StatementSection.t;
  equity : StatementSection.t
}.
End BalanceSheet.

(** [{ description, amount }]: one line of the cash-flow statement. *)
Module CashFlowItem.
Record t : Type := mk {
  description : string;
  amount : Z
}.
End CashFlowItem.

(** [{ items, total }]: one group of the cash-flow statement. *)
Module CashFlowSection.
Record t : Type := mk {
  items : list CashFlowItem.t;
  total : Z
}.
End CashFlowSection.

(** The result of [generateCashFlowStatement]. *)
Module CashFlowStatement.
Record t : Type := mk {
  operatingActivities : CashFlowSection.t;
  investingActivities : CashFlowSection.t;
  financingActivities : CashFlowSection.t;
  netCashFlow : Z
}.
End CashFlowStatement.

(** ** [class AccountingService] *)

Module AccountingService.

(** The argument of [recordSale]; [total] and [costOfGoodsSold] in cents. *)
Record SaleData : Type := mkSaleData {
  saleId : Z;
  userId : Z;
  total : Z;
  costOfGoodsSold : Z;
  paymentMethod : string
}.

(** The result of [getAccountBalance]. *)
Record Balance : Type := mkBalance {
  balance : Z;
  debitTotal : Z;
  creditTotal : Z
}.

Definition default_account (code name type : string) (subtype : option string)
    (normalBalance description : string) (isSystem : bool) : InsertAccount.t :=
  InsertAccount.mk code name type subtype normalBalance (Some description)
    None (Some isSystem) None.

Definition defaultAccounts : list InsertAccount.t :=
  [ default_account "1000" "Cash" "asset" (Some "current_asset") "debit" "Cash on hand and in bank" true;
    default_account "1100" "Accounts Receivable" "asset" (Some "current_asset") "debit" "Money owed by customers" true;
    default_account "1200" "Inventory" "asset" (Some "current_asset") "debit" "Products available for sale" true;
    default_account "1500" "Equipment" "asset" (Some "fixed_asset") "debit" "Store equipment and fixtures" true;
    default_account "2000" "Accounts Payable" "liability" (Some "current_liability") "credit" "Money owed to suppliers" true;
    default_account "2100" "Sales Tax Payable" "liability" (Some "current_liability") "credit" "VAT/Tax collected from sales" true;
    default_account "3000" "Owner's Capital" "equity" None "credit" "Owner's investment in business" true;
    default_account "3100" "Retained Earnings" "equity" None "credit" "Accumulated profits" true;
    default_account "4000" "Sales Revenue" "revenue" None "credit" "Revenue from product sales" true;
    default_account "4100" "Other Income" "revenue" None "credit" "Miscellaneous income" false;
    default_account "5000" "Cost of Goods Sold" "expense" (Some "cogs") "debit" "Direct cost of products sold" true;
    default_account "6000" "Rent Expense" "expense" (Some "operating_expense") "debit" "Store rent" false;
    default_account "6100" "Utilities Expense" "expense" (Some "operating_expense") "debit" "Electricity, water, internet" false;
    default_account "6200" "Salaries Expense" "expense" (Some "operating_expense") "debit" "Employee wages" false;
    default_account "6300" "Marketing Expense" "expense" (Some "operating_expense") "debit" "Advertising and promotions" false;
    default_account "6400" "Supplies Expense" "expense" (Some "operating_expense") "debit" "Office and store supplies" false;
    default_account "6500" "Depreciation Expense" "expense" (Some "operating_expense") "debit" "Asset depreciation" false ].

Definition createAccount (now : Z) (insertAccount : InsertAccount.t)
  : M Account.t :=
  insert_account now insertAccount.

Definition getAccount (id : Z) : M (option Account.t) :=
  query (fun st => find (fun a => Account.id a =? id) (accounts st)).

Definition getAccountByCode (code : string) : M (option Account.t) :=
  query (fun st => find (fun a => String.eqb (Account.code a) code) (accounts st)).

Definition getAllAccounts : M (list Account.t) :=
  query (fun st => filter Account.isActive (accounts st)).

Definition initializeChartOfAccounts (now : Z) : M unit :=
  existingAccounts <- getAllAccounts ;;
  if (0 <? List.length existingAccounts)%nat then ret tt
  else for_each defaultAccounts
         (fun account => _ <- createAccount now account ;; ret tt).

Definition generateEntryNumber : M string :=
  lastEntry <- query (fun st => last_by_id (journalEntries st)) ;;
  match lastEntry with
  | None => ret "JE-0001"
  | Some lastEntry =>
      let lastNumber :=
        Js.parseInt
          (Js.or_else
             (nth_error (Js.split "-" (JournalEntry.entryNumber lastEntry)) 1)
             "0") in
      ret ("JE-" ++ Js.padStart 4 "0" (Js.String_ (Js.succ lastNumber)))
  end.

Definition createJournalEntry (sch : Schema) (now : Z)
    (input : JournalEntryInput.t) : M JournalEntry.t :=
  let totalDebits :=
    fold_left (fun sum entry => (sum + Js.parseFloat (LineInput.debit entry))%float)
      (JournalEntryInput.entries input) 0%float in
  let totalCredits :=
    fold_left (fun sum entry => (sum + Js.parseFloat (LineInput.credit entry))%float)
      (JournalEntryInput.entries input) 0%float in
  if (0.01 <? abs (totalDebits - totalCredits))%float
  then throw (NotBalanced totalDebits totalCredits)
  else
    entryNumber <- generateEntryNumber ;;
    journalEntry <-
      insert_journal_entry sch now
        (mkJournalEntryValues entryNumber
           (JournalEntryInput.description input)
           (or_default (JournalEntryInput.entryDate input) now)
           (JournalEntryInput.referenceType input)
           (JournalEntryInput.referenceId input)
           (JournalEntryInput.userId input)
           (JournalEntryInput.notes input)
           "posted") ;;
    _ <- for_each (JournalEntryInput.entries input)
           (fun entry =>
              insert_ledger_entry sch now (JournalEntry.id journalEntry)
                (LineInput.accountId entry) (LineInput.debit entry)
                (LineInput.credit entry)
                (Js.or_else (LineInput.description entry)
                   (JournalEntryInput.description input))) ;;
    ret journalEntry.

Definition getJournalEntry (id : Z) : M (option JournalEntry.t) :=
  query (fun st => find (fun e => JournalEntry.id e =? id) (journalEntries st)).



Definition getLedgerEntries (journalEntryId : Z) : M (list LedgerEntry.t) :=
  query (fun st =>
    filter (fun l => LedgerEntry.journalEntryId l =? journalEntryId)
      (ledgerEntries st)).


Definition getAccountBalance (accountId : Z) (asOfDate : option Z)
  : M Balance :=
  result <- query (fun st =>
    let rows := filter (fun l => LedgerEntry.accountId l =? accountId)
                  (ledgerEntries st) in
    (coalesce_sum LedgerEntry.debit rows, coalesce_sum LedgerEntry.credit rows)) ;;
  let totalDebits := fst result in
  let totalCredits := snd result in
  account <- getAccount accountId ;;
  let balance :=
    if match account with
       | Some a => String.eqb (Account.normalBalance a) "debit"
       | None => false
       end
    then totalDebits - totalCredits
    else totalCredits - totalDebits in
  ret (mkBalance balance totalDebits totalCredits).

Definition recordSale (sch : Schema) (now : Z) (saleData : SaleData)
  : M JournalEntry.t :=
  cashAccount <- getAccountByCode "1000" ;;
  salesRevenueAccount <- getAccountByCode "4000" ;;
  cogsAccount <- getAccountByCode "5000" ;;
  inventoryAccount <- getAccountByCode "1200" ;;
  match cashAccount, salesRevenueAccount, cogsAccount, inventoryAccount with
  | Some cashAccount, Some salesRevenueAccount, Some cogsAccount,
    Some inventoryAccount =>
      createJournalEntry sch now
        (JournalEntryInput.mk
           ("Sale #" ++ Js.String_ (Js.Num (saleId saleData)) ++ " - "
              ++ paymentMethod saleData)
           None (Some "sale") (Some (saleId saleData)) (userId saleData) None
           [ LineInput.mk (Account.id cashAccount) (total saleData) 0
               (Some "Cash received from sale");
             LineInput.mk (Account.id salesRevenueAccount) 0 (total saleData)
               (Some "Revenue from sale");
             LineInput.mk (Account.id cogsAccount) (costOfGoodsSold saleData) 0
               (Some "Cost of goods sold");
             LineInput.mk (Account.id inventoryAccount) 0
               (costOfGoodsSold saleData) (Some "Inventory reduction") ])
  | _, _, _, _ => throw RequiredAccountsNotFound
  end.

Definition voidJournalEntry (id : Z) : M (option JournalEntry.t) :=
  fun st =>
    let updated := update_status id "void" (journalEntries st) in
    (Ok (find (fun e => JournalEntry.id e =? id) updated),
     mkDb (accounts st) (accounts_id_seq st)
       updated (journal_entries_id_seq st)
       (ledgerEntries st) (ledger_entries_id_seq st)).

Definition getAccountsByType (type : string) : M (list Account.t) :=
  query (fun st =>
    filter (fun a => String.eqb (Account.type a) type && Account.isActive a)
      (accounts st)).

(** The loop the statements run over the accounts of a type:
    [for (const account of accounts) {
       const balance = await this.getAccountBalance(account.id, asOfDate);
       data.push({ ...account, balance: balance.balance });
       total += balance.balance; }]. *)
Fixpoint balances_loop (asOfDate : option Z) (accounts_ : list Account.t)
    (data : list AccountWithBalance.t) (total_ : Z)
  : M (list AccountWithBalance.t * Z) :=
  match accounts_ with
  | [] => ret (data, total_)
  | account :: rest =>
      b <- getAccountBalance (Account.id account) asOfDate ;;
      balances_loop asOfDate rest
        (data ++ [AccountWithBalance.mk account (balance b)])
        (total_ + balance b)
  end.

Definition generateProfitAndLoss (startDate endDate : Z)
  : M ProfitAndLoss.t :=
  revenueAccounts <- getAccountsByType "revenue" ;;
  expenseAccounts <- getAccountsByType "expense" ;;
  r <- balances_loop None revenueAccounts [] 0 ;;
  let revenueData := fst r in
  let totalRevenue := snd r in
  e <- balances_loop None expenseAccounts [] 0 ;;
  let expenseData := fst e in
  let totalExpenses := snd e in
  ret (ProfitAndLoss.mk
         (StatementSection.mk revenueData totalRevenue)
         (StatementSection.mk expenseData totalExpenses)
         (totalRevenue - totalExpenses)).

Definition generateBalanceSheet (asOfDate : Z) : M BalanceSheet.t :=
  assetAccounts <- getAccountsByType "asset" ;;
  liabilityAccounts <- getAccountsByType "liability" ;;
  equityAccounts <- getAccountsByType "equity" ;;
  a <- balances_loop (Some asOfDate) assetAccounts [] 0 ;;
  l <- balances_loop (Some asOfDate) liabilityAccounts [] 0 ;;
  q <- balances_loop (Some asOfDate) equityAccounts [] 0 ;;
  ret (BalanceSheet.mk
         (StatementSection.mk (fst a) (snd a))
         (StatementSection.mk (fst l) (snd l))
         (StatementSection.mk (fst q) (snd q))).

Definition generateCashFlowStatement (startDate endDate : Z)
  : M CashFlowStatement.t :=
  pl <- generateProfitAndLoss startDate endDate ;;
  let operatingItems :=
    [CashFlowItem.mk "Net Income" (ProfitAndLoss.netIncome pl)] in
  ret (CashFlowStatement.mk
         (CashFlowSection.mk operatingItems (ProfitAndLoss.netIncome pl))
         (CashFlowSection.mk [] 0)
         (CashFlowSection.mk [] 0)
         (ProfitAndLoss.netIncome pl)).

End AccountingService.

(** ** The accounting routes that call the service *)

(** Strings made of decimal digits only. *)
Fixpoint digits_only (s : string) : bool :=
  match s with
  | EmptyString => true
  | String c s' => Js.is_digit c && digits_only s'
  end.

(** One element of [req.body.entries]: the amounts are the strings of the
    request. *)
Module RequestLine.
Record t : Type := mk {
  accountId : Z;
  debit : string;
  credit : string;
  description : option string
}.
End RequestLine.

(** [req.body] of a post to the journal, with the types the request schema
    asks for; its numbers hold integers, and [entryDate] is the time its
    date string denotes. *)
Module RequestBody.
Record t : Type := mk {
  description : string;
  entryDate : option Z;
  referenceType : option string;
  referenceId : option Z;
  userId : Z;
  notes : option string;
  entries : list RequestLine.t
}.
End RequestBody.

Module Routes.

(** What a handler sends back. *)
Inductive Response (A : Type) : Type :=
| Json (body : A)
    (* res.json(body) *)
| InvalidData (message : string)
    (* res.status(400).json({ message, errors }) on a ZodError *)
| NotBalancedDetails (debits credits : float)
    (* res.status(400).json({ message: "Journal entry not balanced",
                              details: { debits, credits } }) *)
| Failed (e : Error)
    (* res.status(400).json({ message: error.message }) *)
| NotFound (message : string)
    (* res.status(404).json({ message }) *)
| InternalServerError.
    (* res.status(500).json({ message: "Internal server error" }) *)
Arguments Json {A} body.
Arguments InvalidData {A} message.
Arguments NotBalancedDetails {A} debits credits.
Arguments Failed {A} e.
Arguments NotFound {A} message.
Arguments InternalServerError {A}.

(** The value of a string of decimal digits. *)
Definition value_of (s : string) : Z :=
  match Js.parse_digits 10 s None with
  | Some n => Z.of_N n
  | None => 0
  end.

(** [/^\d+(\.\d{1,2})?$/.test(s)]: one digit or more, then possibly a point
    and one or two digits; nothing before, nothing after. *)
Definition amount_pattern (s : string) : bool :=
  match Js.split "." s with
  | [units] => digits_only units && (1 <=? String.length units)%nat
  | [units; decimals] =>
      digits_only units && (1 <=? String.length units)%nat
      && digits_only decimals
      && (1 <=? String.length decimals)%nat
      && (String.length decimals <=? 2)%nat
  | _ => false
  end.

(** The amount in cents that a string matching the pattern denotes. *)
Definition cents_of (s : string) : Z :=
  match Js.split "." s with
  | [units; decimals] =>
      100 * value_of units
      + (if (String.length decimals =? 1)%nat then 10 * value_of decimals
         else value_of decimals)
  | _ => 100 * value_of s
  end.

(** A line of the request as the service takes it. *)
Definition line_of (e : RequestLine.t) : LineInput.t :=
  LineInput.mk (RequestLine.accountId e) (cents_of (RequestLine.debit e))
    (cents_of (RequestLine.credit e)) (RequestLine.description e).

(** [createJournalEntrySchema.parse(req.body)]: the entry data, or [None]
    for a [ZodError]. *)
Definition createJournalEntrySchema (body : RequestBody.t)
  : option JournalEntryInput.t :=
  if negb (String.eqb (RequestBody.description body) "")
     && (2 <=? List.length (RequestBody.entries body))%nat
     && forallb
          (fun e => amount_pattern (RequestLine.debit e)
                    && amount_pattern (RequestLine.credit e))
          (RequestBody.entries body)
  then Some (JournalEntryInput.mk (RequestBody.description body)
               (RequestBody.entryDate body)
               (RequestBody.referenceType body)
               (RequestBody.referenceId body)
               (RequestBody.userId body)
               (RequestBody.notes body)
               (map line_of (RequestBody.entries body)))
  else None.

(** [POST /api/accounting/journal-entries]. *)
Definition post_journal_entries (sch : Schema) (now : Z) (body : RequestBody.t)
  : Db -> Response JournalEntry.t * Db :=
  fun st =>
    match createJournalEntrySchema body with
    | None => (InvalidData "Invalid journal entry data", st)
    | Some entryData =>
        let totalDebits :=
          fold_left (fun sum e => (sum + Js.parseFloat (LineInput.debit e))%float)
            (JournalEntryInput.entries entryData) 0%float in
        let totalCredits :=
          fold_left (fun sum e => (sum + Js.parseFloat (LineInput.credit e))%float)
            (JournalEntryInput.entries entryData) 0%float in
        if (0.01 <=? abs (totalDebits - totalCredits))%float
        then (NotBalancedDetails totalDebits totalCredits, st)
        else
          match AccountingService.createJournalEntry sch now entryData st with
          | (Ok entry, st') => (Json entry, st')
          | (Throw e, st') => (Failed e, st')
          end
    end.

(** [GET /api/accounting/accounts/:id/balance]; [param] is [req.params.id].
    The store refuses a parameter that is not a value of the [integer]
    column it is compared with - [NaN], an infinity, an integer out of
    range - and the handler answers the error with status 500. *)
Definition get_account_balance (param : string)
  : Db -> Response AccountingService.Balance * Db :=
  fun st =>
    match Js.parseInt param with
    | Js.Num id =>
        if int4 id
        then match AccountingService.getAccountBalance id None st with
             | (Ok balance, st') => (Json balance, st')
             | (Throw _, st') => (InternalServerError, st')
             end
        else (InternalServerError, st)
    | _ => (InternalServerError, st)
    end.

(** [DELETE /api/accounting/journal-entries/:id]. *)
Definition delete_journal_entry (id : Z)
  : Db -> Response JournalEntry.t * Db :=
  fun st =>
    match AccountingService.voidJournalEntry id st with
    | (Ok (Some entry), st') => (Json entry, st')
    | (Ok None, st') => (NotFound "Journal entry not found", st')
    | (Throw _, st') => (InternalServerError, st')
    end.

(** [GET /api/accounting/accounts]; [type] is the query parameter, and
    an empty string counts as none. *)
Definition get_accounts (type : option string)
  : Db -> Response (list Account.t) * Db :=
  fun st =>
    let listing :=
      match type with
      | Some (String c t) => AccountingService.getAccountsByType (String c t)
      | _ => AccountingService.getAllAccounts
      end in
    match listing st with
    | (Ok accounts_, st') => (Json accounts_, st')
    | (Throw _, st') => (InternalServerError, st')
    end.


(** [GET /api/accounting/journal-entries/:id]: the entry with its lines,
    [{ ...entry, ledgerEntries }]. *)
Definition get_journal_entry (id : Z)
  : Db -> Response (JournalEntry.t * list LedgerEntry.t) * Db :=
  fun st =>
    match AccountingService.getJournalEntry id st with
    | (Ok None, st') => (NotFound "Journal entry not found", st')
    | (Ok (Some entry), st') =>
        match AccountingService.getLedgerEntries id st' with
        | (Ok ledgerEntries_, st'') => (Json (entry, ledgerEntries_), st'')
        | (Throw _, st'') => (InternalServerError, st'')
        end
    | (Throw _, st') => (InternalServerError, st')
    end.

End Routes.

(** ** Sequences of posts *)

(** The posts of a list made one after the other, each with its own reading
    of the clock; the outcomes in order and the store at the end. *)
Fixpoint post_all (sch : Schema) (posts : list (Z * JournalEntryInput.t))
    (st : Db) : list (Outcome JournalEntry.t) * Db :=
  match posts with
  | [] => ([], st)
  | (now, input) :: rest =>
      let (r, st1) := AccountingService.createJournalEntry sch now input st in
      let (rs, st2) := post_all sch rest st1 in
      (r :: rs, st2)
  end.

(** The entries of the posts that succeeded. *)
Fixpoint posted (rs : list (Outcome JournalEntry.t)) : list JournalEntry.t :=
  match rs with
  | [] => []
  | Ok e :: rs' => e :: posted rs'
  | Throw _ :: rs' => posted rs'
  end.

(** The number the [n]-th entry of a journal carries: "JE-" and [n] padded
    with zeros to four digits. *)
Definition entry_number_of (n : N) : string :=
  "JE-" ++ Js.padStart 4 "0" (Js.digits n).

(** The integer part of an entry number, as [generateEntryNumber] reads it. *)
Definition numeric_part (entryNumber : string) : Js.number :=
  Js.parseInt (Js.or_else (nth_error (Js.split "-" entryNumber) 1) "0").

(** ** Reference notions the properties are stated with *)

(** The sum of the debits of the lines of an account, line by line. *)
Fixpoint account_debits (accountId : Z) (rows : list LedgerEntry.t) : Z :=
  match rows with
  | [] => 0
  | l :: rows' =>
      if LedgerEntry.accountId l =? accountId
      then LedgerEntry.debit l + account_debits accountId rows'
      else account_debits accountId rows'
  end.

(** The sum of the credits of the lines of an account, line by line. *)
Fixpoint account_credits (accountId : Z) (rows : list LedgerEntry.t) : Z :=
  match rows with
  | [] => 0
  | l :: rows' =>
      if LedgerEntry.accountId l =? accountId
      then LedgerEntry.credit l + account_credits accountId rows'
      else account_credits accountId rows'
  end.



(** The store a call leaves behind. *)
Definition run {A} (m : M A) (st : Db) : Db := snd (m st).


(** Two accounts, and the postings {debit 100.00, credit 30.00} then
    {debit 50.00, credit 0.00} against the first one, whose normal balance
    is the argument; the second account takes the other side. *)
Definition balance_scenario (normalBalance : string) : Db :=
  let st1 :=
    run (AccountingService.createAccount 0
           (InsertAccount.mk "1000" "Cash" "asset" None normalBalance None
              None None None)) empty_db in
  let st2 :=
    run (AccountingService.createAccount 0
           (InsertAccount.mk "3000" "Owner's Capital" "equity" None "credit"
              None None None None)) st1 in
  let st3 :=
    run (AccountingService.createJournalEntry shared_schema 1
           (JournalEntryInput.mk "Opening" None None None 1 None
              [LineInput.mk 1 10000 3000 None; LineInput.mk 2 0 7000 None]))
      st2 in
  run (AccountingService.createJournalEntry shared_schema 2
         (JournalEntryInput.mk "Deposit" None None None 1 None
            [LineInput.mk 1 5000 0 None; LineInput.mk 2 0 5000 None]))
    st3.

(** The sum of a column over rows, row by row. *)
Fixpoint sum_of {A} (col : A -> Z) (rows : list A) : Z :=
  match rows with
  | [] => 0
  | x :: rows' => col x + sum_of col rows'
  end.

(** The ledger rows a post appends for its lines: ids from [next] on, all
    with the id of the new journal entry. *)
Fixpoint ledger_rows (now journalEntryId : Z) (description : string)
    (next : Z) (entries : list LineInput.t) : list LedgerEntry.t :=
  match entries with
  | [] => []
  | entry :: rest =>
      LedgerEntry.mk next journalEntryId (LineInput.accountId entry)
        (LineInput.debit entry) (LineInput.credit entry)
        (Some (Js.or_else (LineInput.description entry) description)) now
      :: ledger_rows now journalEntryId description (next + 1) rest
  end.

(** A chart whose only account was created inactive. *)
Definition deactivated_chart : Db :=
  run (AccountingService.createAccount 0
         (InsertAccount.mk "9999" "Suspense" "asset" None "debit" None
            (Some false) None None)) empty_db.

(** A journal as [n] sequential posts leave it: the entries carry the
    numbers of 1 to [n] in order, every id is below the sequence, which has
    advanced once per entry at least, and the entry of greatest id carries
    the number of [n]. *)
Definition journal_numbered (n : nat) (st : Db) : Prop :=
  map JournalEntry.entryNumber (journalEntries st)
  = map (fun k => entry_number_of (N.of_nat k)) (seq 1 n)
  /\ Forall (fun e => JournalEntry.id e < journal_entries_id_seq st)
       (journalEntries st)
  /\ Z.of_nat n < journal_entries_id_seq st
  /\ match last_by_id (journalEntries st) with
     | None => n = 0%nat
     | Some b => JournalEntry.entryNumber b = entry_number_of (N.of_nat n)
     end.

(** The two totals [createJournalEntry] and the route add up, line after
    line, as doubles. *)
Definition total_debits (entries : list LineInput.t) : float :=
  fold_left (fun sum entry => (sum + Js.parseFloat (LineInput.debit entry))%float)
    entries 0%float.

Definition total_credits (entries : list LineInput.t) : float :=
  fold_left (fun sum entry => (sum + Js.parseFloat (LineInput.credit entry))%float)
    entries 0%float.

(** The balance test of [createJournalEntry] lets the input through. *)
Definition passes_balance_test (input : JournalEntryInput.t) : bool :=
  negb (0.01 <? abs (total_debits (JournalEntryInput.entries input)
                     - total_credits (JournalEntryInput.entries input)))%float.

(** The store takes the header of the input at the time [now]: its
    strings, its date - [entryDate] or else the time of the call -, its
    reference and its user are values of their columns and, on the
    migration's database, the user is a row of [users]. *)
Definition header_accepted (sch : Schema) (now : Z)
    (input : JournalEntryInput.t) : bool :=
  timestamp (or_default (JournalEntryInput.entryDate input) now)
  && text (JournalEntryInput.description input)
  && text_or_null (JournalEntryInput.referenceType input)
  && int4_or_null (JournalEntryInput.referenceId input)
  && int4 (JournalEntryInput.userId input)
  && text_or_null (JournalEntryInput.notes input)
  && (negb (migrated sch)
      || existsb (Z.eqb (JournalEntryInput.userId input)) (users sch)).

(** The store takes a line: the account id, the description and the
    amounts are values of their columns and, on the migration's database,
    the line has one positive side and its account is in the chart. *)
Definition line_accepted (sch : Schema) (chart : list Account.t)
    (entry : LineInput.t) : bool :=
  int4 (LineInput.accountId entry)
  && text_or_null (LineInput.description entry)
  && numeric_15_2 (LineInput.debit entry)
  && numeric_15_2 (LineInput.credit entry)
  && (negb (migrated sch)
      || chk_ledger_entries_debit_credit (LineInput.debit entry)
           (LineInput.credit entry)
         && existsb (fun a => Account.id a =? LineInput.accountId entry) chart).

(** The post writes a header: it passes the balance test and the store
    takes its header. *)
Definition writes_header (sch : Schema) (now : Z)
    (input : JournalEntryInput.t) : bool :=
  passes_balance_test input && header_accepted sch now input.

(** The number of posts of a list that write a header. *)
Definition headers (sch : Schema) (posts : list (Z * JournalEntryInput.t))
  : nat :=
  List.length (filter (fun p => writes_header sch (fst p) (snd p)) posts).

(** The number of lines of the posts of a list. *)
Definition lines_of_posts (posts : list (Z * JournalEntryInput.t)) : nat :=
  List.length (flat_map (fun p => JournalEntryInput.entries (snd p)) posts).

(** What each post of a list gets when [n] headers are in the journal: the
    number of the next header when it writes a header and the store takes
    all its lines, and nothing otherwise; a header counts whether or not
    the lines follow. *)
Fixpoint numbers_issued (sch : Schema) (chart : list Account.t) (n : nat)
    (posts : list (Z * JournalEntryInput.t)) : list (option string) :=
  match posts with
  | [] => []
  | (now, input) :: rest =>
      if writes_header sch now input
      then (if forallb (line_accepted sch chart)
                 (JournalEntryInput.entries input)
            then Some (entry_number_of (N.of_nat (S n)))
            else None)
           :: numbers_issued sch chart (S n) rest
      else None :: numbers_issued sch chart n rest
  end.

(** The entry number of a post that returned. *)
Definition number_of_outcome (r : Outcome JournalEntry.t) : option string :=
  match r with
  | Ok e => Some (JournalEntry.entryNumber e)
  | Throw _ => None
  end.

(** The columns of a ledger row that a post decides. *)
Definition line_columns (l : LedgerEntry.t) : Z * Z * Z * Z :=
  (LedgerEntry.journalEntryId l, LedgerEntry.accountId l,
   LedgerEntry.debit l, LedgerEntry.credit l).

(** The seeded chart of accounts, with no journal entry yet. *)
Definition seeded_db : Db :=
  run (AccountingService.initializeChartOfAccounts 0) empty_db.

(** ** Reference notions for the statements and the store *)

(** The balance of an account id on the side of its account row: debits
    less credits for a debit-normal account, credits less debits
    otherwise (also when no row has the id). *)
Definition normal_side_balance (st : Db) (accountId : Z) : Z :=
  let d := account_debits accountId (ledgerEntries st) in
  let c := account_credits accountId (ledgerEntries st) in
  match find (fun a => Account.id a =? accountId) (accounts st) with
  | Some a =>
      if String.eqb (Account.normalBalance a) "debit" then d - c else c - d
  | None => c - d
  end.

(** The rows a statement shows for a list of accounts. *)
Definition statement_rows (st : Db) (accounts_ : list Account.t)
  : list AccountWithBalance.t :=
  map (fun a => AccountWithBalance.mk a (normal_side_balance st (Account.id a)))
    accounts_.

(** The active accounts of a type, in table order. *)
Definition active_of_type (type : string) (st : Db) : list Account.t :=
  filter (fun a => String.eqb (Account.type a) type && Account.isActive a)
    (accounts st).

(** The store as the service keeps it: ids below their sequences and
    pairwise distinct, codes and entry numbers pairwise distinct, and every
    ledger line attached to a journal entry of the journal. *)
Definition store_ok (st : Db) : Prop :=
  Forall (fun a => Account.id a < accounts_id_seq st) (accounts st)
  /\ NoDup (map Account.id (accounts st))
  /\ NoDup (map Account.code (accounts st))
  /\ Forall (fun e => JournalEntry.id e < journal_entries_id_seq st)
       (journalEntries st)
  /\ NoDup (map JournalEntry.id (journalEntries st))
  /\ NoDup (map JournalEntry.entryNumber (journalEntries st))
  /\ Forall (fun l => LedgerEntry.id l < ledger_entries_id_seq st)
       (ledgerEntries st)
  /\ NoDup (map LedgerEntry.id (ledgerEntries st))
  /\ Forall
       (fun l =>
          In (LedgerEntry.journalEntryId l)
            (map JournalEntry.id (journalEntries st)))
       (ledgerEntries st).

(** The account rows the seed loop creates for a list of defaults, ids from
    [next] on. *)
Fixpoint seed_rows (now next : Z) (ds : list InsertAccount.t)
  : list Account.t :=
  match ds with
  | [] => []
  | d :: ds' =>
      Account.mk next (InsertAccount.code d) (InsertAccount.name d)
        (InsertAccount.type d) (InsertAccount.subtype d)
        (InsertAccount.normalBalance d) (InsertAccount.description d)
        (or_default (InsertAccount.isActive d) true)
        (or_default (InsertAccount.isSystem d) false)
        (InsertAccount.parentAccountId d) now
      :: seed_rows now (next + 1) ds'
  end.

(** The defaults the seed reaches before the first one whose code is
    already in the chart. *)
Fixpoint seeded_prefix (codes : list string) (ds : list InsertAccount.t)
  : list InsertAccount.t :=
  match ds with
  | [] => []
  | d :: ds' =>
      if existsb (String.eqb (InsertAccount.code d)) codes then []
      else d :: seeded_prefix (InsertAccount.code d :: codes) ds'
  end.

(** The store after the seeded chart and the sale of the specification. *)
Definition sale_scenario : Db :=
  run (AccountingService.recordSale shared_schema 5
         (AccountingService.mkSaleData 42 1 11600 7000 "cash")) seeded_db.

(** An entry number whose integer part is padded with zeros to a width:
    the service pads to 4, the mock seed ([seedMockData]) to 6. *)
Definition padded_entry_number (width : nat) (n : N) : string :=
  "JE-" ++ Js.padStart width "0" (Js.digits n).

(** The values [createJournalEntry] hands to the insert of the header,
    under the entry number [n]. *)
Definition header_values (now : Z) (input : JournalEntryInput.t) (n : string)
  : JournalEntryValues :=
  mkJournalEntryValues n
    (JournalEntryInput.description input)
    (or_default (JournalEntryInput.entryDate input) now)
    (JournalEntryInput.referenceType input)
    (JournalEntryInput.referenceId input)
    (JournalEntryInput.userId input)
    (JournalEntryInput.notes input)
    "posted".

(** The header row of a post. *)
Definition header_row (now : Z) (input : JournalEntryInput.t) (n : string)
    (id : Z) : JournalEntry.t :=
  JournalEntry.mk id n
    (or_default (JournalEntryInput.entryDate input) now)
    (JournalEntryInput.description input)
    (JournalEntryInput.referenceType input)
    (JournalEntryInput.referenceId input)
    (JournalEntryInput.userId input) "posted"
    (JournalEntryInput.notes input) now now.

(** A request of eight lines, four debits and four credits against the
    first eight accounts of the seeded chart; every amount fits
    [decimal(15,2)], and the debits exceed the credits by 0.02. *)
Definition year_end_transfer : RequestBody.t :=
  RequestBody.mk "Year-end transfer" None None None 1 None
    [ RequestLine.mk 1 "9267175755216.10" "0.00" None;
      RequestLine.mk 2 "9399917434509.09" "0.00" None;
      RequestLine.mk 3 "9702823400828.84" "0.00" None;
      RequestLine.mk 4 "9553600036556.21" "0.00" None;
      RequestLine.mk 5 "0.00" "9675857536571.75" None;
      RequestLine.mk 6 "0.00" "9568988565952.88" None;
      RequestLine.mk 7 "0.00" "9935547571065.49" None;
      RequestLine.mk 8 "0.00" "8743122953520.10" None ].

(** The migration's database with one user, of id 1. *)
Definition migrated_schema : Schema := mkSchema true [1].

(** The values of a list of optional values. *)
Fixpoint somes {A} (l : list (option A)) : list A :=
  match l with
  | [] => []
  | Some a :: l' => a :: somes l'
  | None :: l' => somes l'
  end.

(** Every post of the list that writes a header has all its lines taken
    by the store. *)
Definition headers_complete (sch : Schema) (chart : list Account.t)
    (posts : list (Z * JournalEntryInput.t)) : Prop :=
  Forall
    (fun p =>
       writes_header sch (fst p) (snd p) = true ->
       forallb (line_accepted sch chart) (JournalEntryInput.entries (snd p))
       = true)
    posts.

(** A post whose amounts do not fit [decimal(15,2)], then a post of
    100.00. *)
Definition overflow_then_deposit : list (Z * JournalEntryInput.t) :=
  [ (1, JournalEntryInput.mk "Transfer" None None None 1 None
          [LineInput.mk 1 1000000000000000 0 None;
           LineInput.mk 2 0 1000000000000000 None]);
    (2, JournalEntryInput.mk "Deposit" None None None 1 None
          [LineInput.mk 1 10000 0 None; LineInput.mk 2 0 10000 None]) ].

(** The store can hold the rows of the sale at the time [now]: the time
    is a value of the [timestamp] column, the ids are values of the
    [integer] columns, the payment method of a [text] column and the
    amounts of the [decimal(15,2)] columns; on the migration's database
    both amounts are positive, as the CHECK on ledger lines asks, and the
    user is a row of [users]. *)
Definition sale_accepted (sch : Schema) (now : Z)
    (sale : AccountingService.SaleData) : bool :=
  timestamp now
  && text (AccountingService.paymentMethod sale)
  && int4 (AccountingService.saleId sale)
  && int4 (AccountingService.userId sale)
  && numeric_15_2 (AccountingService.total sale)
  && numeric_15_2 (AccountingService.costOfGoodsSold sale)
  && (negb (migrated sch)
      || (0 <? AccountingService.total sale)
         && (0 <? AccountingService.costOfGoodsSold sale)
         && existsb (Z.eqb (AccountingService.userId sale)) (users sch)).

(** The ids of the chart are values of the [integer] id column. *)
Definition chart_ids_in_range (st : Db) : Prop :=
  Forall (fun a => int4 (Account.id a) = true) (accounts st).


(** * Properties *)

Import AccountingService.

(** ** Sums *)

Lemma fold_left_add_shift (l : list Z) (a : Z) :
  fold_left Z.add l a = a + fold_left Z.add l 0.
Proof.
  revert a. induction l as [|x l IH]; intros a; simpl.
  - lia.
  - rewrite IH, (IH x). lia.
Qed.

Lemma coalesce_sum_cons {A} (col : A -> Z) (x : A) (rows : list A) :
  coalesce_sum col (x :: rows) = col x + coalesce_sum col rows.
Proof.
  unfold coalesce_sum. simpl. rewrite fold_left_add_shift. lia.
Qed.

Lemma sum_debits_filter (accountId : Z) (rows : list LedgerEntry.t) :
  coalesce_sum LedgerEntry.debit
    (filter (fun l => LedgerEntry.accountId l =? accountId) rows)
  = account_debits accountId rows.
Proof.
  induction rows as [|l rows IH]; simpl.
  - reflexivity.
  - destruct (LedgerEntry.accountId l =? accountId).
    + rewrite coalesce_sum_cons, IH. reflexivity.
    + exact IH.
Qed.

Lemma sum_credits_filter (accountId : Z) (rows : list LedgerEntry.t) :
  coalesce_sum LedgerEntry.credit
    (filter (fun l => LedgerEntry.accountId l =? accountId) rows)
  = account_credits accountId rows.
Proof.
  induction rows as [|l rows IH]; simpl.
  - reflexivity.
  - destruct (LedgerEntry.accountId l =? accountId).
    + rewrite coalesce_sum_cons, IH. reflexivity.
    + exact IH.
Qed.

(** [getAccountBalance] never throws and never writes; its result is
    determined by the ledger lines and the account row. *)
Lemma getAccountBalance_eq (accountId : Z) (asOfDate : option Z) (st : Db) :
  getAccountBalance accountId asOfDate st =
  (Ok (mkBalance
         (if match find (fun a => Account.id a =? accountId) (accounts st) with
             | Some a => String.eqb (Account.normalBalance a) "debit"
             | None => false
             end
          then account_debits accountId (ledgerEntries st)
               - account_credits accountId (ledgerEntries st)
          else account_credits accountId (ledgerEntries st)
               - account_debits accountId (ledgerEntries st))
         (account_debits accountId (ledgerEntries st))
         (account_credits accountId (ledgerEntries st))),
   st).
Proof.
  unfold getAccountBalance, getAccount, bind, query, ret. simpl.
  rewrite sum_debits_filter, sum_credits_filter. reflexivity.
Qed.

(** ** Account balances *)



Example balance_debit_normal :
  fst (getAccountBalance 1 None (balance_scenario "debit"))
  = Ok (mkBalance 12000 15000 3000).
Proof. vm_compute. reflexivity. Qed.

Example balance_credit_normal :
  fst (getAccountBalance 1 None (balance_scenario "credit"))
  = Ok (mkBalance (-12000) 15000 3000).
Proof. vm_compute. reflexivity. Qed.






(** A request for an account id past the integer column. *)
Example balance_of_an_id_out_of_range :
  Routes.get_account_balance "3000000000" (balance_scenario "debit")
  = (Routes.InternalServerError, balance_scenario "debit").
Proof. vm_compute. reflexivity. Qed.

(** ** Voiding a journal entry *)






Example void_second_entry :
  let st := balance_scenario "debit" in
  map JournalEntry.status
    (journalEntries (snd (Routes.delete_journal_entry 2 st)))
  = ["posted"; "void"]
  /\ fst (Routes.delete_journal_entry 7 st)
     = Routes.NotFound "Journal entry not found"
  /\ snd (Routes.delete_journal_entry 7 st) = st.
Proof. vm_compute. repeat split; reflexivity. Qed.

(** ** The two ledger listings *)





(** ** Posting a journal entry *)

Lemma ledger_rows_columns now j d next entries :
  map LedgerEntry.journalEntryId (ledger_rows now j d next entries)
  = map (fun _ => j) entries
  /\ map LedgerEntry.accountId (ledger_rows now j d next entries)
     = map LineInput.accountId entries
  /\ sum_of LedgerEntry.debit (ledger_rows now j d next entries)
     = sum_of LineInput.debit entries
  /\ sum_of LedgerEntry.credit (ledger_rows now j d next entries)
     = sum_of LineInput.credit entries.
Proof.
  revert next. induction entries as [|e entries IH]; intros next; simpl.
  - repeat split.
  - destruct (IH (next + 1)) as (H1 & H2 & H3 & H4).
    rewrite H1, H2, H3, H4. repeat split.
Qed.

(** One insert into the ledger: the row appended, or a refusal that leaves
    the tables as they are and takes at most one value of the sequence. *)
Lemma insert_ledger_entry_cases sch now j a debit credit d st :
  insert_ledger_entry sch now j a debit credit d st
  = (Ok tt,
     mkDb (accounts st) (accounts_id_seq st)
       (journalEntries st) (journal_entries_id_seq st)
       (ledgerEntries st
          ++ [LedgerEntry.mk (ledger_entries_id_seq st) j a debit credit
                (Some d) now])
       (ledger_entries_id_seq st + 1))
  \/ exists e x,
       insert_ledger_entry sch now j a debit credit d st
       = (Throw e,
          mkDb (accounts st) (accounts_id_seq st)
            (journalEntries st) (journal_entries_id_seq st)
            (ledgerEntries st) x)
       /\ ledger_entries_id_seq st <= x <= ledger_entries_id_seq st + 1.
Proof.
  unfold insert_ledger_entry, take_ledger_entries_id.
  cbn [refused_parameter].
  repeat match goal with
         | |- context [if ?b then _ else _] => destruct b
         end;
    first
      [ left; reflexivity
      | right; do 2 eexists; split; [reflexivity | lia]
      | right; eexists; exists (ledger_entries_id_seq st);
        split; [destruct st; reflexivity | lia] ].
Qed.

(** The loop over the lines: it appends the rows of the lines before the
    first one the store refuses, and stops there. *)
Lemma for_each_insert_ledger sch now j d entries st :
  exists k x r,
    for_each entries
      (fun entry =>
         insert_ledger_entry sch now j (LineInput.accountId entry)
           (LineInput.debit entry) (LineInput.credit entry)
           (Js.or_else (LineInput.description entry) d)) st
    = (r,
       mkDb (accounts st) (accounts_id_seq st)
         (journalEntries st) (journal_entries_id_seq st)
         (ledgerEntries st
            ++ ledger_rows now j d (ledger_entries_id_seq st)
                 (firstn k entries))
         x)
    /\ (k <= List.length entries)%nat
    /\ ledger_entries_id_seq st + Z.of_nat k <= x
       <= ledger_entries_id_seq st + Z.of_nat (List.length entries)
    /\ match r with
       | Ok _ => k = List.length entries
       | Throw _ => (k < List.length entries)%nat
       end.
Proof.
  revert st. induction entries as [|e entries IH]; intros st.
  - exists 0%nat, (ledger_entries_id_seq st), (Ok tt).
    cbn [for_each firstn ledger_rows List.length]. unfold ret.
    rewrite app_nil_r. split; [destruct st; reflexivity|].
    split; [lia|]. split; [lia | reflexivity].
  - cbn [for_each]. unfold bind at 1.
    destruct (insert_ledger_entry_cases sch now j (LineInput.accountId e)
                (LineInput.debit e) (LineInput.credit e)
                (Js.or_else (LineInput.description e) d) st)
      as [Hok|(err & x & Hthrow & Hx)].
    + rewrite Hok.
      match goal with
      | |- context [for_each entries ?body ?s] =>
          destruct (IH s) as (k & x & r & Heq & Hk & Hx & Hr)
      end.
      cbn [accounts accounts_id_seq journalEntries journal_entries_id_seq
           ledgerEntries ledger_entries_id_seq] in Heq, Hx.
      exists (S k), x, r. rewrite Heq.
      cbn [firstn ledger_rows List.length]. rewrite <- app_assoc.
      split; [reflexivity|]. split; [lia|]. split; [lia|].
      destruct r; lia.
    + rewrite Hthrow. exists 0%nat, x, (Throw err).
      cbn [firstn ledger_rows List.length]. rewrite app_nil_r.
      split; [reflexivity|]. split; [lia|]. split; lia.
Qed.

Lemma text_or_else (x : option string) (d : string) :
  text_or_null x = true -> text d = true -> text (Js.or_else x d) = true.
Proof.
  destruct x as [[|c x]|]; cbn [Js.or_else text_or_null]; intros Hx Hd;
    assumption.
Qed.

(** With the journal entry there and a value left in the sequence, an
    insert into the ledger succeeds exactly when the store takes the line. *)
Lemma insert_ledger_entry_accepted sch now j entry d st :
  int4 j = true ->
  text d = true ->
  existsb (fun e => JournalEntry.id e =? j) (journalEntries st) = true ->
  has_next (ledger_entries_id_seq st) = true ->
  if line_accepted sch (accounts st) entry
  then insert_ledger_entry sch now j (LineInput.accountId entry)
         (LineInput.debit entry) (LineInput.credit entry)
         (Js.or_else (LineInput.description entry) d) st
       = (Ok tt,
          mkDb (accounts st) (accounts_id_seq st)
            (journalEntries st) (journal_entries_id_seq st)
            (ledgerEntries st
               ++ [LedgerEntry.mk (ledger_entries_id_seq st) j
                     (LineInput.accountId entry) (LineInput.debit entry)
                     (LineInput.credit entry)
                     (Some (Js.or_else (LineInput.description entry) d)) now])
            (ledger_entries_id_seq st + 1))
  else exists e st',
         insert_ledger_entry sch now j (LineInput.accountId entry)
           (LineInput.debit entry) (LineInput.credit entry)
           (Js.or_else (LineInput.description entry) d) st
         = (Throw e, st').
Proof.
  intros Hj Hd Hje Hnext.
  unfold insert_ledger_entry, line_accepted. cbn [refused_parameter].
  rewrite Hj, Hje, Hnext.
  destruct (int4 (LineInput.accountId entry));
    [|cbn; do 2 eexists; reflexivity].
  destruct (text_or_null (LineInput.description entry)) eqn:Ht.
  - rewrite (text_or_else _ _ Ht Hd).
    destruct (numeric_15_2 (LineInput.debit entry));
      [|cbn; do 2 eexists; reflexivity].
    destruct (numeric_15_2 (LineInput.credit entry));
      [|cbn; do 2 eexists; reflexivity].
    destruct (migrated sch); cbn [andb orb negb]; [|reflexivity].
    destruct (chk_ledger_entries_debit_credit (LineInput.debit entry)
                (LineInput.credit entry));
      [|cbn; do 2 eexists; reflexivity].
    destruct (existsb (fun a => Account.id a =? LineInput.accountId entry)
                (accounts st));
      [reflexivity | cbn; do 2 eexists; reflexivity].
  - cbn [andb].
    assert (Hbad : text (Js.or_else (LineInput.description entry) d) = false).
    { destruct (LineInput.description entry) as [[|c x]|];
        cbn [text_or_null] in Ht; try discriminate Ht.
      exact Ht. }
    rewrite Hbad. do 2 eexists. reflexivity.
Qed.

(** When the journal entry is there and the sequence has a value for every
    line, the loop succeeds exactly when the store takes every line. *)
Lemma for_each_insert_ledger_accepted sch now j d entries st :
  int4 j = true ->
  text d = true ->
  existsb (fun e => JournalEntry.id e =? j) (journalEntries st) = true ->
  ledger_entries_id_seq st + Z.of_nat (List.length entries) <= 2147483648 ->
  exists r st',
    for_each entries
      (fun entry =>
         insert_ledger_entry sch now j (LineInput.accountId entry)
           (LineInput.debit entry) (LineInput.credit entry)
           (Js.or_else (LineInput.description entry) d)) st
    = (r, st')
    /\ if forallb (line_accepted sch (accounts st)) entries
       then r = Ok tt
            /\ st' = mkDb (accounts st) (accounts_id_seq st)
                       (journalEntries st) (journal_entries_id_seq st)
                       (ledgerEntries st
                          ++ ledger_rows now j d (ledger_entries_id_seq st)
                               entries)
                       (ledger_entries_id_seq st
                        + Z.of_nat (List.length entries))
       else exists e, r = Throw e.
Proof.
  revert st. induction entries as [|e entries IH]; intros st Hj Hd Hje Hroom.
  - exists (Ok tt), st. cbn [forallb for_each ledger_rows List.length].
    unfold ret. rewrite app_nil_r, Z.add_0_r.
    split; [reflexivity|]. split; [reflexivity | destruct st; reflexivity].
  - cbn [forallb for_each List.length] in *. unfold bind at 1.
    assert (Hnext : has_next (ledger_entries_id_seq st) = true).
    { unfold has_next. apply Z.leb_le. lia. }
    pose proof (insert_ledger_entry_accepted sch now j e d st Hj Hd Hje Hnext)
      as Hins.
    destruct (line_accepted sch (accounts st) e).
    + rewrite Hins.
      match goal with
      | |- context [for_each entries ?body ?s] =>
          specialize (IH s)
      end.
      cbn [accounts accounts_id_seq journalEntries journal_entries_id_seq
           ledgerEntries ledger_entries_id_seq] in IH.
      destruct (IH Hj Hd Hje ltac:(lia)) as (r & st' & Heq & Hres).
      exists r, st'. split; [exact Heq|]. cbn [andb].
      destruct (forallb (line_accepted sch (accounts st)) entries).
      * destruct Hres as [-> ->]. split; [reflexivity|].
        cbn [ledger_rows]. rewrite <- app_assoc.
        f_equal. lia.
      * exact Hres.
    + destruct Hins as (err & st' & Hins). rewrite Hins.
      exists (Throw err), st'. split; [reflexivity|].
      cbn [andb]. exists err. reflexivity.
Qed.

Lemma generateEntryNumber_reads (st : Db) :
  exists n, generateEntryNumber st = (Ok n, st).
Proof.
  unfold generateEntryNumber, bind, query, ret.
  destruct (last_by_id (journalEntries st)); eexists; reflexivity.
Qed.

Lemma entry_number_taken (n : string) (rows : list JournalEntry.t) :
  existsb (fun r => String.eqb (JournalEntry.entryNumber r) n) rows = true
  <-> In n (map JournalEntry.entryNumber rows).
Proof.
  rewrite existsb_exists, in_map_iff. split.
  - intros (r & Hr & Heq). apply String.eqb_eq in Heq. exists r. split; assumption.
  - intros (r & Heq & Hr). exists r. split; [exact Hr | apply String.eqb_eq, Heq].
Qed.

(** The insert of the header: the row appended when the store takes the
    header under the number, the sequence has a value left and the number
    is free; else a refusal that leaves the tables as they are. *)
Lemma insert_journal_entry_cases sch now input n st :
  (header_accepted sch now input = true
   /\ text n = true
   /\ has_next (journal_entries_id_seq st) = true
   /\ ~ In n (map JournalEntry.entryNumber (journalEntries st))
   /\ insert_journal_entry sch now (header_values now input n) st
      = (Ok (header_row now input n (journal_entries_id_seq st)),
         mkDb (accounts st) (accounts_id_seq st)
           (journalEntries st
              ++ [header_row now input n (journal_entries_id_seq st)])
           (journal_entries_id_seq st + 1)
           (ledgerEntries st) (ledger_entries_id_seq st)))
  \/ ((header_accepted sch now input = false
       \/ text n = false
       \/ has_next (journal_entries_id_seq st) = false
       \/ In n (map JournalEntry.entryNumber (journalEntries st)))
      /\ exists e x,
           insert_journal_entry sch now (header_values now input n) st
           = (Throw e,
              mkDb (accounts st) (accounts_id_seq st)
                (journalEntries st) x
                (ledgerEntries st) (ledger_entries_id_seq st))
           /\ journal_entries_id_seq st <= x <= journal_entries_id_seq st + 1).
Proof.
  unfold insert_journal_entry, header_accepted, header_values,
    take_journal_entries_id.
  cbn [v_entryNumber v_referenceId v_userId v_description v_entryDate
       v_referenceType v_notes v_status refused_parameter].
  change (text "posted") with true. cbv iota.
  destruct (text n).
  2:{ right. split; [right; left; reflexivity|].
      eexists; exists (journal_entries_id_seq st).
      split; [destruct st; reflexivity | lia]. }
  destruct (timestamp (or_default (JournalEntryInput.entryDate input) now));
    cbn [andb].
  2:{ right. split; [left; reflexivity|].
      eexists; exists (journal_entries_id_seq st).
      split; [destruct st; reflexivity | lia]. }
  destruct (text (JournalEntryInput.description input)); cbn [andb].
  2:{ right. split; [left; reflexivity|].
      eexists; exists (journal_entries_id_seq st).
      split; [destruct st; reflexivity | lia]. }
  destruct (text_or_null (JournalEntryInput.referenceType input)); cbn [andb].
  2:{ right. split; [left; reflexivity|].
      eexists; exists (journal_entries_id_seq st).
      split; [destruct st; reflexivity | lia]. }
  destruct (int4_or_null (JournalEntryInput.referenceId input)); cbn [andb].
  2:{ right. split; [left; reflexivity|].
      eexists; exists (journal_entries_id_seq st).
      split; [destruct st; reflexivity | lia]. }
  destruct (int4 (JournalEntryInput.userId input)); cbn [andb].
  2:{ right. split; [left; reflexivity|].
      eexists; exists (journal_entries_id_seq st).
      split; [destruct st; reflexivity | lia]. }
  destruct (text_or_null (JournalEntryInput.notes input)); cbn [andb].
  2:{ right. split; [left; reflexivity|].
      eexists; exists (journal_entries_id_seq st).
      split; [destruct st; reflexivity | lia]. }
  destruct (has_next (journal_entries_id_seq st)) eqn:Hnext; cbn [negb].
  2:{ right. split; [right; right; left; reflexivity|].
      exists (OutOfRange "journal_entries_id_seq"), (journal_entries_id_seq st).
      split; [destruct st; reflexivity | lia]. }
  destruct (existsb (fun r => String.eqb (JournalEntry.entryNumber r) n)
              (journalEntries st)) eqn:Hex.
  { right. split; [right; right; right; apply entry_number_taken, Hex|].
    do 2 eexists. split; [reflexivity | lia]. }
  destruct (migrated sch); cbn [negb andb orb].
  - destruct (existsb (Z.eqb (JournalEntryInput.userId input)) (users sch));
      cbn [negb].
    + left. repeat split; try reflexivity.
      intros Hin. apply entry_number_taken in Hin. congruence.
    + right. split; [left; reflexivity|].
      do 2 eexists. split; [reflexivity | lia].
  - left. repeat split; try reflexivity.
    intros Hin. apply entry_number_taken in Hin. congruence.
Qed.

Lemma createJournalEntry_unfold sch now input st :
  createJournalEntry sch now input st
  = if passes_balance_test input
    then
      (entryNumber <- generateEntryNumber ;;
       journalEntry <-
         insert_journal_entry sch now (header_values now input entryNumber) ;;
       _ <- for_each (JournalEntryInput.entries input)
              (fun entry =>
                 insert_ledger_entry sch now (JournalEntry.id journalEntry)
                   (LineInput.accountId entry) (LineInput.debit entry)
                   (LineInput.credit entry)
                   (Js.or_else (LineInput.description entry)
                      (JournalEntryInput.description input))) ;;
       ret journalEntry) st
    else (Throw (NotBalanced
                   (total_debits (JournalEntryInput.entries input))
                   (total_credits (JournalEntryInput.entries input))), st).
Proof.
  unfold createJournalEntry, passes_balance_test, total_debits, total_credits,
    header_values.
  destruct (0.01 <? _)%float; reflexivity.
Qed.

(** What a post does, case by case: rejected before any statement when
    the totals differ by more than 0.01; refused by the store, with at
    most the sequence advanced, when the store does not take the header;
    otherwise one header, and the rows of the lines before the first one
    the store refuses - of all the lines when the post returns. *)
Lemma createJournalEntry_cases sch now input st :
  (passes_balance_test input = false
   /\ createJournalEntry sch now input st
      = (Throw (NotBalanced
                  (total_debits (JournalEntryInput.entries input))
                  (total_credits (JournalEntryInput.entries input))), st))
  \/ (passes_balance_test input = true
      /\ exists n, generateEntryNumber st = (Ok n, st)
      /\ (((header_accepted sch now input = false
            \/ text n = false
            \/ has_next (journal_entries_id_seq st) = false
            \/ In n (map JournalEntry.entryNumber (journalEntries st)))
           /\ exists e x,
                createJournalEntry sch now input st
                = (Throw e,
                   mkDb (accounts st) (accounts_id_seq st)
                     (journalEntries st) x
                     (ledgerEntries st) (ledger_entries_id_seq st))
                /\ journal_entries_id_seq st <= x
                   <= journal_entries_id_seq st + 1)
          \/ (header_accepted sch now input = true
              /\ has_next (journal_entries_id_seq st) = true
              /\ ~ In n (map JournalEntry.entryNumber (journalEntries st))
              /\ exists k x r,
                   createJournalEntry sch now input st
                   = (r,
                      mkDb (accounts st) (accounts_id_seq st)
                        (journalEntries st
                           ++ [header_row now input n (journal_entries_id_seq st)])
                        (journal_entries_id_seq st + 1)
                        (ledgerEntries st
                           ++ ledger_rows now (journal_entries_id_seq st)
                                (JournalEntryInput.description input)
                                (ledger_entries_id_seq st)
                                (firstn k (JournalEntryInput.entries input)))
                        x)
                   /\ (k <= List.length (JournalEntryInput.entries input))%nat
                   /\ ledger_entries_id_seq st + Z.of_nat k <= x
                      <= ledger_entries_id_seq st
                         + Z.of_nat (List.length (JournalEntryInput.entries input))
                   /\ match r with
                      | Ok e =>
                          e = header_row now input n (journal_entries_id_seq st)
                          /\ k = List.length (JournalEntryInput.entries input)
                      | Throw _ =>
                          (k < List.length (JournalEntryInput.entries input))%nat
                      end))).
Proof.
  remember (createJournalEntry sch now input st) as res eqn:Hres.
  rewrite createJournalEntry_unfold in Hres.
  destruct (passes_balance_test input).
  2:{ left. split; [reflexivity | exact Hres]. }
  right. split; [reflexivity|].
  destruct (generateEntryNumber_reads st) as [n Hn].
  exists n. split; [exact Hn|].
  unfold bind at 1 in Hres. rewrite Hn in Hres. unfold bind at 1 in Hres.
  destruct (insert_journal_entry_cases sch now input n st)
    as [(Hh & _ & Hnext & Hfree & Hins)|(Hwhy & e & x & Hins & Hx)];
    rewrite Hins in Hres; cbv beta iota in Hres.
  - right. split; [exact Hh|]. split; [exact Hnext|]. split; [exact Hfree|].
    unfold bind at 1 in Hres.
    match type of Hres with
    | context [for_each ?l ?body ?s] =>
        destruct (for_each_insert_ledger sch now
                    (journal_entries_id_seq st)
                    (JournalEntryInput.description input) l s)
          as (k & x & r & Heq & Hk & Hx & Hr)
    end.
    cbn [accounts accounts_id_seq journalEntries journal_entries_id_seq
         ledgerEntries ledger_entries_id_seq] in Heq, Hx.
    cbn [header_row JournalEntry.id] in Hres.
    rewrite Heq in Hres.
    destruct r as [[]|err]; cbv beta iota in Hres.
    + exists k, x, (Ok (header_row now input n (journal_entries_id_seq st))).
      split; [exact Hres|]. split; [exact Hk|].
      split; [exact Hx|]. split; [reflexivity | exact Hr].
    + exists k, x, (Throw err).
      split; [exact Hres|]. split; [exact Hk|].
      split; [exact Hx | exact Hr].
  - left. split; [exact Hwhy|]. exists e, x. split; [exact Hres | exact Hx].
Qed.

(** A post that passes the balance test, whose header the store takes
    under a free number, with values left in both sequences: it returns its
    header, with one row per line, exactly when the store takes every
    line; otherwise it throws after the header. *)
Lemma createJournalEntry_accepted sch now input st n :
  passes_balance_test input = true ->
  header_accepted sch now input = true ->
  text n = true ->
  generateEntryNumber st = (Ok n, st) ->
  ~ In n (map JournalEntry.entryNumber (journalEntries st)) ->
  int4 (journal_entries_id_seq st) = true ->
  ledger_entries_id_seq st
  + Z.of_nat (List.length (JournalEntryInput.entries input)) <= 2147483648 ->
  if forallb (line_accepted sch (accounts st)) (JournalEntryInput.entries input)
  then createJournalEntry sch now input st
       = (Ok (header_row now input n (journal_entries_id_seq st)),
          mkDb (accounts st) (accounts_id_seq st)
            (journalEntries st
               ++ [header_row now input n (journal_entries_id_seq st)])
            (journal_entries_id_seq st + 1)
            (ledgerEntries st
               ++ ledger_rows now (journal_entries_id_seq st)
                    (JournalEntryInput.description input)
                    (ledger_entries_id_seq st)
                    (JournalEntryInput.entries input))
            (ledger_entries_id_seq st
             + Z.of_nat (List.length (JournalEntryInput.entries input))))
  else exists e, fst (createJournalEntry sch now input st) = Throw e.
Proof.
  intros Hpass Hh Htext Hn Hfree Hid Hroom.
  assert (Hd : text (JournalEntryInput.description input) = true).
  { pose proof Hh as Hd. unfold header_accepted in Hd.
    do 5 (apply andb_true_iff in Hd; destruct Hd as [Hd _]).
    apply andb_true_iff in Hd. exact (proj2 Hd). }
  remember (createJournalEntry sch now input st) as res eqn:Hres.
  rewrite createJournalEntry_unfold, Hpass in Hres.
  unfold bind at 1 in Hres. rewrite Hn in Hres. unfold bind at 1 in Hres.
  destruct (insert_journal_entry_cases sch now input n st)
    as [(_ & _ & _ & _ & Hins)|([Hc|[Hc|[Hc|Hc]]] & _)].
  2:{ congruence. }
  2:{ congruence. }
  2:{ unfold int4 in Hid. unfold has_next in Hc.
      apply andb_true_iff in Hid. destruct Hid as [_ Hid]. congruence. }
  2:{ contradiction. }
  rewrite Hins in Hres. cbv beta iota in Hres. unfold bind at 1 in Hres.
  assert (Hje : existsb (fun e => JournalEntry.id e =? journal_entries_id_seq st)
                  (journalEntries st
                     ++ [header_row now input n (journal_entries_id_seq st)])
                = true).
  { rewrite existsb_app. cbn [existsb header_row JournalEntry.id].
    rewrite Z.eqb_refl, orb_true_r. reflexivity. }
  match type of Hres with
  | context [for_each ?l ?body ?s] =>
      destruct (for_each_insert_ledger_accepted sch now
                  (journal_entries_id_seq st)
                  (JournalEntryInput.description input) l s Hid Hd Hje Hroom)
        as (r & st' & Heq & Hr)
  end.
  cbn [accounts accounts_id_seq journalEntries journal_entries_id_seq
       ledgerEntries ledger_entries_id_seq] in Heq, Hr.
  cbn [header_row JournalEntry.id] in Hres.
  rewrite Heq in Hres.
  destruct (forallb (line_accepted sch (accounts st))
              (JournalEntryInput.entries input)).
  - destruct Hr as [-> ->]. exact Hres.
  - destruct Hr as [e ->]. exists e. rewrite Hres. reflexivity.
Qed.
(** C1, where the code departs from it.  The request [year_end_transfer]
    passes the request schema; its debits exceed its credits by 0.02, but
    added up as doubles the two totals differ by 0.0078125, which is below
    the tolerance of the route and of [createJournalEntry].  On the seeded
    chart, on either database, the route answers with the entry: the
    journal holds it and the ledger holds its eight lines, whose debits
    exceed their credits by 0.02. *)
Theorem out_of_balance_entry_is_posted :
  let st := seeded_db in
  exists input,
    Routes.createJournalEntrySchema year_end_transfer = Some input
    /\ sum_of LineInput.debit (JournalEntryInput.entries input)
       - sum_of LineInput.credit (JournalEntryInput.entries input) = 2
    /\ (total_debits (JournalEntryInput.entries input)
        - total_credits (JournalEntryInput.entries input))%float
       = 0.0078125%float
    /\ passes_balance_test input = true
    /\ forall sch, sch = shared_schema \/ sch = migrated_schema ->
       exists e st',
         Routes.post_journal_entries sch 7 year_end_transfer st
         = (Routes.Json e, st')
         /\ createJournalEntry sch 7 input st = (Ok e, st')
         /\ JournalEntry.status e = "posted"
         /\ journalEntries st' = [e]
         /\ map LedgerEntry.journalEntryId (ledgerEntries st')
            = repeat (JournalEntry.id e) 8
         /\ sum_of LedgerEntry.debit (ledgerEntries st')
            - sum_of LedgerEntry.credit (ledgerEntries st') = 2.
Proof.
  cbv zeta. eexists. split; [vm_compute; reflexivity|].
  split; [vm_compute; reflexivity|].
  split; [vm_compute; reflexivity|].
  split; [vm_compute; reflexivity|].
  intros sch [->| ->]; do 2 eexists;
    (split; [vm_compute; reflexivity|]);
    repeat split; vm_compute; reflexivity.
Qed.

(** A difference of one cent is already past the tolerance of
    [createJournalEntry] when the amounts are added as doubles: 1.01
    against 1.00 is thrown back with the two totals, the store as
    before. *)
Example one_cent_apart_is_rejected :
  let input :=
    JournalEntryInput.mk "Cash sale" None None None 1 None
      [LineInput.mk 1 101 0 None; LineInput.mk 2 0 100 None] in
  createJournalEntry shared_schema 3 input (balance_scenario "debit")
  = (Throw (NotBalanced 1.01 1), balance_scenario "debit").
Proof. vm_compute. reflexivity. Qed.
(** ** The request schema of the route *)

Example amounts_that_match :
  map Routes.amount_pattern ["116.00"; "12.5"; "0"; "007.50"]
  = [true; true; true; true]
  /\ map Routes.cents_of ["116.00"; "12.5"; "0"; "007.50"]
     = [11600; 1250; 0; 750].
Proof. vm_compute. split; reflexivity. Qed.

Example amounts_that_do_not_match :
  map Routes.amount_pattern
    ["1.234"; "abc"; "-1"; ""; "1."; ".5"; "1e3"; "1.2.3"; "12.50 "; "+7"]
  = [false; false; false; false; false; false; false; false; false; false].
Proof. vm_compute. reflexivity. Qed.

Lemma route_invalid sch now body st :
  Routes.createJournalEntrySchema body = None ->
  Routes.post_journal_entries sch now body st
  = (Routes.InvalidData "Invalid journal entry data", st).
Proof.
  intros Hs. unfold Routes.post_journal_entries. rewrite Hs. reflexivity.
Qed.

(** C2, as the code violates it.  On the seeded chart, which has no
    account of id 999, a request of two lines against account 999, one with
    debit and credit both 5.00 and one with both zero, passes the route.
    On the database of [shared/schema.ts] the route answers with the entry,
    and one header and the two lines are written.  On the migration's
    database the CHECK refuses the first line and the route answers the
    error, after the header was written: it stays in the journal.  And
    [createJournalEntry] given no line at all writes a header on either
    database. *)
Lemma unchecked_lines_are_persisted :
  let st := seeded_db in
  let body :=
    RequestBody.mk "Adjustment" None None None 1 None
      [RequestLine.mk 999 "5.00" "5.00" None;
       RequestLine.mk 999 "0" "0" None] in
  let empty := JournalEntryInput.mk "Adjustment" None None None 1 None [] in
  getAccount 999 st = (Ok None, st)
  /\ journalEntries st = []
  /\ ledgerEntries st = []
  /\ (exists e, fst (Routes.post_journal_entries shared_schema 3 body st)
                = Routes.Json e)
  /\ List.length
       (journalEntries (snd (Routes.post_journal_entries shared_schema 3 body st)))
     = 1%nat
  /\ map (fun l => (LedgerEntry.accountId l, LedgerEntry.debit l, LedgerEntry.credit l))
       (ledgerEntries (snd (Routes.post_journal_entries shared_schema 3 body st)))
     = [(999, 500, 500); (999, 0, 0)]
  /\ fst (Routes.post_journal_entries migrated_schema 3 body st)
     = Routes.Failed (CheckViolation "chk_ledger_entries_debit_credit")
  /\ map JournalEntry.description
       (journalEntries (snd (Routes.post_journal_entries migrated_schema 3 body st)))
     = ["Adjustment"]
  /\ (exists e, fst (createJournalEntry shared_schema 3 empty st) = Ok e)
  /\ List.length (journalEntries (run (createJournalEntry shared_schema 3 empty) st))
     = 1%nat
  /\ (exists e, fst (createJournalEntry migrated_schema 3 empty st) = Ok e)
  /\ List.length (journalEntries (run (createJournalEntry migrated_schema 3 empty) st))
     = 1%nat.
Proof.
  vm_compute. repeat split; try reflexivity; eexists; reflexivity.
Qed.

(** C2, amended.  At the route, the request schema is checked before any
    write: a request with fewer than 2 lines, or with a line whose debit or
    credit does not match the amount pattern (digits, then possibly a
    point and one or two digits: no sign, no third decimal, nothing that
    is not a number), is answered with the validation error, and the store
    is exactly as before: no header, no line. *)
Theorem invalid_body_is_rejected
    (sch : Schema) (now : Z) (body : RequestBody.t) (st : Db)
    (Hbad :
       (List.length (RequestBody.entries body) < 2)%nat
       \/ Exists
            (fun e => Routes.amount_pattern (RequestLine.debit e) = false
                      \/ Routes.amount_pattern (RequestLine.credit e) = false)
            (RequestBody.entries body)) :
  Routes.post_journal_entries sch now body st
  = (Routes.InvalidData "Invalid journal entry data", st).
Proof.
  apply route_invalid. unfold Routes.createJournalEntrySchema.
  destruct Hbad as [Hlen|Hex].
  - destruct (Nat.leb_spec 2 (List.length (RequestBody.entries body)))
      as [Hge|_]; [lia|].
    rewrite andb_false_r. reflexivity.
  - apply Exists_exists in Hex. destruct Hex as (e & Hin & He).
    destruct (forallb _ (RequestBody.entries body)) eqn:Hall.
    + rewrite forallb_forall in Hall. specialize (Hall e Hin).
      apply andb_true_iff in Hall. destruct Hall as [Hd Hc].
      destruct He as [He|He]; congruence.
    + rewrite andb_false_r. reflexivity.
Qed.

(** A request of two lines, one of them with a third decimal, on the
    scenario store. *)
Lemma invalid_body_is_rejected_witness :
  let st := balance_scenario "debit" in
  let body :=
    RequestBody.mk "Adjustment" None None None 1 None
      [RequestLine.mk 1 "1.234" "0.00" None;
       RequestLine.mk 2 "0.00" "1.23" None] in
  Exists
    (fun e => Routes.amount_pattern (RequestLine.debit e) = false
              \/ Routes.amount_pattern (RequestLine.credit e) = false)
    (RequestBody.entries body)
  /\ Routes.post_journal_entries migrated_schema 3 body st
     = (Routes.InvalidData "Invalid journal entry data", st).
Proof.
  cbv zeta.
  assert (Hbad :
    Exists
      (fun e => Routes.amount_pattern (RequestLine.debit e) = false
                \/ Routes.amount_pattern (RequestLine.credit e) = false)
      (RequestBody.entries
         (RequestBody.mk "Adjustment" None None None 1 None
            [RequestLine.mk 1 "1.234" "0.00" None;
             RequestLine.mk 2 "0.00" "1.23" None]))).
  { apply Exists_cons_hd. left. vm_compute. reflexivity. }
  split; [exact Hbad|].
  apply invalid_body_is_rejected. right. exact Hbad.
Defined.

(** A request of one line, and one whose amount is not a number. *)
Example requests_the_schema_refuses :
  let st := balance_scenario "debit" in
  Routes.post_journal_entries shared_schema 3
    (RequestBody.mk "Adjustment" None None None 1 None
       [RequestLine.mk 1 "0.00" "0.00" None]) st
  = (Routes.InvalidData "Invalid journal entry data", st)
  /\ Routes.post_journal_entries shared_schema 3
       (RequestBody.mk "Adjustment" None None None 1 None
          [RequestLine.mk 1 "ten" "0.00" None;
           RequestLine.mk 2 "0.00" "-10.00" None]) st
     = (Routes.InvalidData "Invalid journal entry data", st).
Proof. vm_compute. split; reflexivity. Qed.

(** ** Seeding the chart of accounts *)

Lemma insert_account_cases now a st :
  (existsb (fun r => String.eqb (Account.code r) (InsertAccount.code a))
     (accounts st) = true
   /\ exists st',
        insert_account now a st
        = (Throw (UniqueViolation "accounts_code_unique"), st')
        /\ accounts st' = accounts st)
  \/ (existsb (fun r => String.eqb (Account.code r) (InsertAccount.code a))
        (accounts st) = false
      /\ exists row st',
           insert_account now a st = (Ok row, st')
           /\ accounts st' = (accounts st ++ [row])%list
           /\ Account.code row = InsertAccount.code a
           /\ Account.isActive row = or_default (InsertAccount.isActive a) true).
Proof.
  unfold insert_account.
  destruct (existsb _ (accounts st)); [left | right]; split; try reflexivity.
  - eexists. split; reflexivity.
  - do 2 eexists. repeat split.
Qed.

Lemma for_each_cons {A} (x : A) (xs : list A) (body : A -> M unit) st :
  for_each (x :: xs) body st
  = match body x st with
    | (Ok _, st') => for_each xs body st'
    | (Throw e, st') => (Throw e, st')
    end.
Proof. reflexivity. Qed.

Lemma create_then_unit now a st :
  (_ <- createAccount now a ;; ret tt) st
  = match insert_account now a st with
    | (Ok _, st') => (Ok tt, st')
    | (Throw e, st') => (Throw e, st')
    end.
Proof.
  unfold bind, createAccount, ret.
  destruct (insert_account now a st) as [[row|e] st']; reflexivity.
Qed.

(** The seeding loop only appends to [accounts]. *)
Lemma seed_loop_extends now ds st :
  exists added,
    accounts
      (run (for_each ds (fun account => _ <- createAccount now account ;; ret tt))
         st)
    = (accounts st ++ added)%list.
Proof.
  revert st. induction ds as [|d ds IH]; intros st.
  - exists []. unfold run. simpl. rewrite app_nil_r. reflexivity.
  - unfold run. rewrite for_each_cons, create_then_unit.
    destruct (insert_account_cases now d st)
      as [(_ & st' & Heq & Hacc)|(_ & row & st' & Heq & Hacc & _)];
      rewrite Heq.
    + exists []. simpl. rewrite Hacc, app_nil_r. reflexivity.
    + destruct (IH st') as [added Hadd].
      unfold run in Hadd. rewrite Hadd, Hacc, <- app_assoc.
      eexists. reflexivity.
Qed.

Lemma seed_loop_codes now ds st :
  NoDup (map Account.code (accounts st)) ->
  NoDup
    (map Account.code
       (accounts
          (run (for_each ds
                  (fun account => _ <- createAccount now account ;; ret tt))
             st))).
Proof.
  revert st. induction ds as [|d ds IH]; intros st Hnd.
  - exact Hnd.
  - unfold run. rewrite for_each_cons, create_then_unit.
    destruct (insert_account_cases now d st)
      as [(_ & st' & Heq & Hacc)|(Hex & row & st' & Heq & Hacc & Hcode & _)];
      rewrite Heq.
    + simpl. rewrite Hacc. exact Hnd.
    + apply IH. rewrite Hacc, map_app. simpl.
      apply NoDup_app_remove_r with (l' := []). rewrite app_nil_r.
      apply (Permutation_NoDup (l := Account.code row :: map Account.code (accounts st))).
      * apply Permutation_cons_append.
      * constructor; [|exact Hnd].
        intros Hin. apply in_map_iff in Hin. destruct Hin as (r & Hr & Hin).
        assert (Ht : existsb
                  (fun r => String.eqb (Account.code r) (InsertAccount.code d))
                  (accounts st) = true).
        { apply existsb_exists. exists r. split; [exact Hin|].
          apply String.eqb_eq. congruence. }
        congruence.
Qed.

Lemma active_after_append (rows added : list Account.t) (row : Account.t) :
  Account.isActive row = true ->
  (0 <? List.length (filter Account.isActive ((rows ++ [row]) ++ added)))%nat
  = true.
Proof.
  intros Hact. rewrite !filter_app, !length_app. simpl. rewrite Hact. simpl.
  apply Nat.ltb_lt. lia.
Qed.

Lemma initializeChartOfAccounts_eq now st :
  initializeChartOfAccounts now st
  = if (0 <? List.length (filter Account.isActive (accounts st)))%nat
    then (Ok tt, st)
    else for_each defaultAccounts
           (fun account => _ <- createAccount now account ;; ret tt) st.
Proof.
  unfold initializeChartOfAccounts, bind, getAllAccounts, query.
  destruct (0 <? _)%nat; reflexivity.
Qed.

(** C8, as the code violates it.  The chart holds one account, inactive;
    the seed writes its seventeen accounts all the same. *)
Lemma seed_writes_beside_inactive_accounts :
  map Account.code (accounts deactivated_chart) = ["9999"]
  /\ List.length (accounts (run (initializeChartOfAccounts 5) deactivated_chart))
     = 18%nat.
Proof. vm_compute. split; reflexivity. Qed.

(** C8, amended.  When an active account exists the seed writes nothing.
    From any store, the accounts after two runs of the seed are exactly the
    accounts after one; and if no two accounts shared a code before, none
    do after. *)
Theorem initializeChartOfAccounts_idempotent (st : Db) (now now' : Z) :
  ((exists a, In a (accounts st) /\ Account.isActive a = true) ->
   initializeChartOfAccounts now st = (Ok tt, st))
  /\ accounts
       (run (initializeChartOfAccounts now')
          (run (initializeChartOfAccounts now) st))
     = accounts (run (initializeChartOfAccounts now) st)
  /\ (NoDup (map Account.code (accounts st)) ->
      NoDup
        (map Account.code
           (accounts (run (initializeChartOfAccounts now) st)))).
Proof.
  split; [|split].
  - intros (a & Hin & Hact). rewrite initializeChartOfAccounts_eq.
    assert (Hf : In a (filter Account.isActive (accounts st)))
      by (apply filter_In; split; assumption).
    destruct (filter Account.isActive (accounts st)); [contradiction|].
    reflexivity.
  - unfold run at 2 3. rewrite (initializeChartOfAccounts_eq now st).
    destruct (0 <? List.length (filter Account.isActive (accounts st)))%nat
      eqn:Hact.
    + unfold run. simpl. rewrite initializeChartOfAccounts_eq, Hact.
      reflexivity.
    + unfold defaultAccounts. rewrite for_each_cons, create_then_unit.
      destruct (insert_account_cases now
                  (default_account "1000" "Cash" "asset" (Some "current_asset")
                     "debit" "Cash on hand and in bank" true) st)
        as [(Hex & st' & Heq & Hacc)|(_ & row & st' & Heq & Hacc & _ & Hrow)];
        rewrite Heq.
      * (* the first insert is refused: the accounts are as before, and the
           second run is refused in the same way *)
        cbn [snd]. unfold run. rewrite initializeChartOfAccounts_eq.
        rewrite Hacc, Hact. unfold defaultAccounts.
        rewrite for_each_cons, create_then_unit.
        destruct (insert_account_cases now'
                    (default_account "1000" "Cash" "asset"
                       (Some "current_asset") "debit"
                       "Cash on hand and in bank" true) st')
          as [(_ & st'' & Heq' & Hacc')|(Hex' & _)].
        -- rewrite Heq'. simpl. congruence.
        -- rewrite Hacc in Hex'. cbn [InsertAccount.code default_account] in *.
           congruence.
      * (* the first insert succeeds: an active account exists from then on *)
        match goal with
        | |- context [for_each ?ds ?f st'] =>
            destruct (seed_loop_extends now ds st') as [added Hadd];
            unfold run in Hadd;
            destruct (for_each ds f st') as [r st''] eqn:Hloop
        end.
        cbn [snd] in *. unfold run. rewrite initializeChartOfAccounts_eq.
        assert (Hnow : (0 <? List.length (filter Account.isActive (accounts st'')))%nat
                       = true).
        { rewrite Hadd, Hacc. apply active_after_append.
          rewrite Hrow. reflexivity. }
        rewrite Hnow. reflexivity.
  - intros Hnd. unfold run. rewrite initializeChartOfAccounts_eq.
    destruct (0 <? _)%nat; [exact Hnd|].
    apply (seed_loop_codes now defaultAccounts st Hnd).
Qed.

Example seed_of_empty_chart :
  map Account.code (accounts (run (initializeChartOfAccounts 0) empty_db))
  = ["1000"; "1100"; "1200"; "1500"; "2000"; "2100"; "3000"; "3100"; "4000";
     "4100"; "5000"; "6000"; "6100"; "6200"; "6300"; "6400"; "6500"]
  /\ run (initializeChartOfAccounts 1) (run (initializeChartOfAccounts 0) empty_db)
     = run (initializeChartOfAccounts 0) empty_db.
Proof. vm_compute. split; reflexivity. Qed.

(** ** Entry numbers as strings *)

Example parseInt_0042 : Js.parseInt "0042" = Js.Num 42.
Proof. reflexivity. Qed.

Example parseInt_hex : Js.parseInt " 0x1f" = Js.Num 31.
Proof. reflexivity. Qed.

Example parseInt_negative : Js.parseInt "-12abc" = Js.Num (-12).
Proof. reflexivity. Qed.

Example parseInt_nan : Js.parseInt "abc" = Js.NaN.
Proof. reflexivity. Qed.

(** Past 2^53 not every integer is a double: the next double is taken,
    [x + 1] can be [x], and [String] prints the shortest digits that read
    back, in exponent form from 10^21 on. *)
Example numbers_past_2_53 :
  Js.parseInt "9007199254740993" = Js.Num 9007199254740992
  /\ Js.succ (Js.Num 9007199254740992) = Js.Num 9007199254740992
  /\ Js.String_ (Js.Num 1152921504606846976) = "1152921504606847000"
  /\ Js.String_ (Js.to_number 1000000000000000000000) = "1e+21"
  /\ Js.String_ (Js.to_number (2 ^ 70)) = "1.1805916207174113e+21"
  /\ Js.to_number (2 ^ 1024) = Js.Infinity false.
Proof. vm_compute. repeat split; reflexivity. Qed.

Example split_JE : Js.split "-" "JE-0042" = ["JE"; "0042"].
Proof. reflexivity. Qed.

Example padStart_7 : Js.padStart 4 "0" (Js.String_ (Js.Num 7)) = "0007".
Proof. reflexivity. Qed.

Example padStart_12345 :
  Js.padStart 4 "0" (Js.String_ (Js.Num 12345)) = "12345".
Proof. reflexivity. Qed.

Example entry_number_of_1 : entry_number_of 1 = "JE-0001".
Proof. reflexivity. Qed.

(** What being a decimal digit excludes. *)
Lemma digit_char (c : ascii) :
  Js.is_digit c = true ->
  Js.is_space c = false
  /\ Ascii.eqb c "-" = false
  /\ Ascii.eqb c "+" = false
  /\ Ascii.eqb c "x" = false
  /\ Ascii.eqb c "X" = false
  /\ Js.digit_of 10 c = Some (N_of_ascii c - 48)%N.
Proof.
  destruct c as [[] [] [] [] [] [] [] []]; intros H;
    try discriminate H; repeat split.
Qed.

Lemma digits_only_app (s t : string) :
  digits_only (s ++ t) = digits_only s && digits_only t.
Proof.
  induction s as [|c s IH]; simpl.
  - reflexivity.
  - rewrite IH, andb_assoc. reflexivity.
Qed.

Lemma digits_only_zeros (k : nat) : digits_only (Js.repeat_char "0" k) = true.
Proof. induction k as [|k IH]; simpl; [reflexivity | exact IH]. Qed.

Lemma digits_only_uint (u : Decimal.uint) :
  digits_only (NilEmpty.string_of_uint u) = true.
Proof. induction u; simpl; auto. Qed.

Lemma digits_only_padStart (n : N) :
  digits_only (Js.padStart 4 "0" (Js.digits n)) = true.
Proof.
  unfold Js.padStart, Js.digits.
  rewrite digits_only_app, digits_only_zeros, digits_only_uint. reflexivity.
Qed.

Lemma split_digits_only (t : string) :
  digits_only t = true -> Js.split "-" t = [t].
Proof.
  induction t as [|c t IH]; simpl; intros H.
  - reflexivity.
  - apply andb_true_iff in H. destruct H as [Hc Ht].
    destruct (digit_char c Hc) as (_ & Hm & _).
    rewrite Hm, (IH Ht). reflexivity.
Qed.

Lemma split_entry_number (t : string) :
  digits_only t = true -> Js.split "-" ("JE-" ++ t) = ["JE"; t].
Proof.
  intros H. simpl. rewrite (split_digits_only t H). reflexivity.
Qed.

(** Reading the digits of a decimal numeral. *)
Lemma parse_digits_revapp (u d : Decimal.uint) :
  Js.parse_digits 10 (NilEmpty.string_of_uint u)
    (Some (DecimalPos.Unsigned.of_lu d))
  = Some (DecimalPos.Unsigned.of_lu (Decimal.revapp u d)).
Proof.
  revert d.
  induction u as [|u IH|u IH|u IH|u IH|u IH|u IH|u IH|u IH|u IH|u IH];
    intros d; [reflexivity | ..];
    cbn [NilEmpty.string_of_uint Js.parse_digits Decimal.revapp];
    rewrite <- IH;
    match goal with
    | |- context [Js.digit_of 10 ?c] =>
        let v := eval vm_compute in (Js.digit_of 10 c) in
        change (Js.digit_of 10 c) with v
    end;
    cbv iota beta; do 2 f_equal; cbn [DecimalPos.Unsigned.of_lu]; lia.
Qed.

Lemma parse_digits_of_digits (n : N) :
  Js.parse_digits 10 (Js.digits n) (Some 0%N) = Some n.
Proof.
  unfold Js.digits.
  change 0%N with (DecimalPos.Unsigned.of_lu Decimal.Nil).
  rewrite parse_digits_revapp.
  change (Decimal.revapp (N.to_uint n) Decimal.Nil)
    with (Decimal.rev (N.to_uint n)).
  rewrite <- DecimalPos.Unsigned.of_uint_alt.
  change (Pos.of_uint (N.to_uint n)) with (N.of_uint (N.to_uint n)).
  rewrite DecimalN.Unsigned.of_to. reflexivity.
Qed.

Lemma parse_digits_zeros (k : nat) (s : string) :
  Js.parse_digits 10 (Js.repeat_char "0" k ++ s) (Some 0%N)
  = Js.parse_digits 10 s (Some 0%N).
Proof. induction k as [|k IH]; simpl; [reflexivity | exact IH]. Qed.

Lemma parse_digits_first (c : ascii) (s : string) :
  Js.is_digit c = true ->
  Js.parse_digits 10 (String c s) None
  = Js.parse_digits 10 (String c s) (Some 0%N).
Proof.
  intros Hc. destruct (digit_char c Hc) as (_ & _ & _ & _ & _ & Hd).
  simpl. rewrite Hd. reflexivity.
Qed.

(** On a string of digits [parseInt] meets no space, sign or radix
    prefix. *)
Lemma parseInt_digits_only (t : string) :
  digits_only t = true -> t <> "" ->
  Js.parseInt t = Js.number_of_digits false (Js.parse_digits 10 t (Some 0%N)).
Proof.
  destruct t as [|c t]; intros Hd Hne; [contradiction|].
  simpl in Hd. apply andb_true_iff in Hd. destruct Hd as [Hc Ht].
  destruct (digit_char c Hc) as (Hsp & Hm & Hp & _).
  unfold Js.parseInt. cbn [Js.skip_spaces]. rewrite Hsp, Hm, Hp.
  unfold Js.parse_unsigned.
  assert (Hhex : Js.strip_hex_prefix (String c t) = None).
  { destruct t as [|c1 t]; [reflexivity|].
    simpl in Ht. apply andb_true_iff in Ht. destruct Ht as [Hc1 _].
    destruct (digit_char c1 Hc1) as (_ & _ & _ & Hx & HX & _).
    unfold Js.strip_hex_prefix. rewrite Hx, HX, andb_false_r. reflexivity. }
  rewrite Hhex, (parse_digits_first c t Hc). reflexivity.
Qed.

Lemma padStart_nonempty (s : string) : Js.padStart 4 "0" s <> "".
Proof.
  unfold Js.padStart. destruct s as [|a s]; [discriminate|].
  destruct (Js.repeat_char "0" (4 - String.length (String a s)));
    discriminate.
Qed.

Lemma or_else_nonempty (t d : string) : t <> "" -> Js.or_else (Some t) d = t.
Proof. destruct t; [contradiction | reflexivity]. Qed.

(** An integer below 2^53 in absolute value is a double. *)
Lemma to_number_safe (z : Z) :
  Z.abs z < 2 ^ 53 -> Js.to_number z = Js.Num z.
Proof.
  intros Hz. unfold Js.to_number.
  destruct (Z.leb_spec (Z.log2 (Z.abs z) - 52) 0) as [_|Hk]; [reflexivity|].
  exfalso.
  assert (Hlog : Z.log2 (Z.abs z) < 53).
  { destruct (Z.eq_dec (Z.abs z) 0) as [->|Hne]; [cbn; lia|].
    apply Z.log2_lt_pow2; lia. }
  lia.
Qed.

Lemma parse_padStart (n : N) :
  Js.parse_digits 10 (Js.padStart 4 "0" (Js.digits n)) (Some 0%N) = Some n.
Proof.
  unfold Js.padStart. rewrite parse_digits_zeros, parse_digits_of_digits.
  reflexivity.
Qed.

Lemma parseInt_padStart (n : N) :
  Js.parseInt (Js.padStart 4 "0" (Js.digits n)) = Js.to_number (Z.of_N n).
Proof.
  rewrite parseInt_digits_only
    by (apply digits_only_padStart || apply padStart_nonempty).
  rewrite parse_padStart. reflexivity.
Qed.

(** The integer part of the number of [n] is the double nearest to [n]. *)
Lemma numeric_part_entry_number_of (n : N) :
  numeric_part (entry_number_of n) = Js.to_number (Z.of_N n).
Proof.
  unfold numeric_part, entry_number_of.
  rewrite split_entry_number by apply digits_only_padStart.
  cbn [nth_error]. rewrite or_else_nonempty by apply padStart_nonempty.
  apply parseInt_padStart.
Qed.

Lemma entry_number_of_inj (n m : N) :
  entry_number_of n = entry_number_of m -> n = m.
Proof.
  unfold entry_number_of. intros H.
  assert (H' : Js.padStart 4 "0" (Js.digits n)
               = Js.padStart 4 "0" (Js.digits m)).
  { cbn [String.append] in H. injection H as H. exact H. }
  apply (f_equal (fun s => Js.parse_digits 10 s (Some 0%N))) in H'.
  rewrite !parse_padStart in H'. congruence.
Qed.

(** Strings that a [text] column holds. *)
Lemma text_app (s t : string) : text (s ++ t) = text s && text t.
Proof.
  induction s as [|c s IH]; cbn [String.append text].
  - reflexivity.
  - rewrite IH, andb_assoc. reflexivity.
Qed.

Lemma digits_only_text (s : string) : digits_only s = true -> text s = true.
Proof.
  induction s as [|c s IH]; cbn [digits_only text]; intros H.
  - reflexivity.
  - apply andb_true_iff in H. destruct H as [Hc Hs].
    rewrite (IH Hs), andb_true_r.
    destruct c as [[] [] [] [] [] [] [] []]; try discriminate Hc; reflexivity.
Qed.

Lemma text_entry_number_of (n : N) : text (entry_number_of n) = true.
Proof.
  unfold entry_number_of. rewrite text_app.
  rewrite (digits_only_text _ (digits_only_padStart n)). reflexivity.
Qed.

(** An integer of the [integer] columns prints as a sign and digits. *)
Lemma text_String_int4 (z : Z) : int4 z = true -> text (Js.String_ (Js.Num z)) = true.
Proof.
  intros Hz. unfold int4 in Hz. apply andb_true_iff in Hz.
  destruct Hz as [Hlo Hhi]. apply Z.leb_le in Hlo, Hhi.
  assert (Hmag : forall a, 0 <= a <= 2147483648 ->
                 text (Js.magnitude a) = true).
  { intros a Ha. unfold Js.magnitude.
    destruct (Z.leb_spec a (2 ^ 53)) as [_|Hbig].
    - apply digits_only_text. unfold Js.digits. apply digits_only_uint.
    - change (2 ^ 53) with 9007199254740992 in Hbig. lia. }
  unfold Js.String_.
  destruct (Z.ltb_spec z 0).
  - rewrite text_app, Hmag by lia. reflexivity.
  - apply Hmag. lia.
Qed.

(** ** Entry numbers of sequential posts *)

Lemma last_by_id_app (rows : list JournalEntry.t) (e : JournalEntry.t) :
  last_by_id (rows ++ [e])
  = match last_by_id rows with
    | None => Some e
    | Some b => if JournalEntry.id b <? JournalEntry.id e then Some e else Some b
    end.
Proof. unfold last_by_id. rewrite fold_left_app. reflexivity. Qed.

Lemma last_by_id_In (rows : list JournalEntry.t) (b : JournalEntry.t) :
  last_by_id rows = Some b -> In b rows.
Proof.
  revert b. induction rows as [|e rows IH] using rev_ind; intros b.
  - discriminate.
  - rewrite last_by_id_app. intros H. apply in_or_app.
    destruct (last_by_id rows) as [b'|].
    + destruct (JournalEntry.id b' <? JournalEntry.id e).
      * injection H as <-. right. left. reflexivity.
      * injection H as <-. left. apply IH. reflexivity.
    + injection H as <-. right. left. reflexivity.
Qed.

(** A row whose id is above all others is the one [last_by_id] selects. *)
Lemma last_by_id_fresh (rows : list JournalEntry.t) (e : JournalEntry.t) :
  Forall (fun r => JournalEntry.id r < JournalEntry.id e) rows ->
  last_by_id (rows ++ [e]) = Some e.
Proof.
  intros Hall. rewrite last_by_id_app.
  destruct (last_by_id rows) as [b|] eqn:Hb; [|reflexivity].
  apply last_by_id_In in Hb. rewrite Forall_forall in Hall.
  specialize (Hall b Hb).
  destruct (Z.ltb_spec (JournalEntry.id b) (JournalEntry.id e)); [reflexivity | lia].
Qed.

(** Below 2^53 the number after [n] prints as the digits of [n + 1]. *)
Lemma String_of_succ (n : N) :
  Z.of_N n + 1 < 2 ^ 53 ->
  Js.String_ (Js.succ (Js.to_number (Z.of_N n))) = Js.digits (n + 1).
Proof.
  intros Hn. rewrite to_number_safe by lia. unfold Js.succ.
  rewrite to_number_safe by lia. unfold Js.String_, Js.magnitude.
  destruct (Z.ltb_spec (Z.of_N n + 1) 0) as [Hneg|_]; [lia|].
  destruct (Z.leb_spec (Z.of_N n + 1) (2 ^ 53)) as [_|Hbig]; [|lia].
  f_equal. lia.
Qed.

Lemma generateEntryNumber_numbered (n : nat) (st : Db) :
  journal_numbered n st ->
  journal_entries_id_seq st <= 2147483647 ->
  generateEntryNumber st = (Ok (entry_number_of (N.of_nat (S n))), st).
Proof.
  intros (_ & _ & Hn & Hlast) Hseq.
  unfold generateEntryNumber, bind, query.
  destruct (last_by_id (journalEntries st)) as [b|].
  - fold (numeric_part (JournalEntry.entryNumber b)).
    rewrite Hlast, numeric_part_entry_number_of, String_of_succ.
    + unfold ret, entry_number_of. repeat f_equal. lia.
    + change (2 ^ 53) with 9007199254740992. lia.
  - subst n. reflexivity.
Qed.

Lemma entry_number_not_in_seq (n : nat) :
  ~ In (entry_number_of (N.of_nat (S n)))
      (map (fun k => entry_number_of (N.of_nat k)) (seq 1 n)).
Proof.
  intros Hin. apply in_map_iff in Hin. destruct Hin as (k & Heq & Hk).
  apply entry_number_of_inj in Heq. apply in_seq in Hk. lia.
Qed.

(** A journal numbered up to [n], with the header of number [n + 1]
    added under the next id. *)
Lemma journal_numbered_succ (n : nat) (st : Db) (je : JournalEntry.t)
    a s l x :
  journal_numbered n st ->
  JournalEntry.id je = journal_entries_id_seq st ->
  JournalEntry.entryNumber je = entry_number_of (N.of_nat (S n)) ->
  journal_numbered (S n)
    (mkDb a s (journalEntries st ++ [je]) (journal_entries_id_seq st + 1) l x).
Proof.
  intros (Hnum & Hids & Hn & _) Hid Hnumber.
  unfold journal_numbered. cbn [journalEntries journal_entries_id_seq].
  split; [|split; [|split]].
  - rewrite map_app, Hnum, seq_S, map_app. cbn [map]. rewrite Hnumber.
    reflexivity.
  - apply Forall_app. split.
    + eapply Forall_impl; [|exact Hids]. cbv beta. intros r Hr. lia.
    + constructor; [lia | constructor].
  - lia.
  - rewrite last_by_id_fresh; [exact Hnumber|].
    rewrite Hid. exact Hids.
Qed.

(** A journal numbered up to [n] stays so when only the sequences move
    on. *)
Lemma journal_numbered_frame (n : nat) (st : Db) a s x l y :
  journal_numbered n st ->
  journal_entries_id_seq st <= x ->
  journal_numbered n (mkDb a s (journalEntries st) x l y).
Proof.
  intros (Hnum & Hids & Hn & Hlast) Hx.
  unfold journal_numbered. cbn [journalEntries journal_entries_id_seq].
  split; [exact Hnum|]. split; [|split; [lia | exact Hlast]].
  eapply Forall_impl; [|exact Hids]. cbv beta. intros r Hr. lia.
Qed.

(** One post on a journal numbered up to [n], with values left in the
    sequences.  When it passes the balance test and the store takes its
    header, the journal is numbered up to [n + 1] afterwards, and the post
    returns the entry of that number exactly when the store takes all its
    lines.  Otherwise it throws and the journal is as before. *)
Lemma createJournalEntry_numbered sch (n : nat) now input st :
  journal_numbered n st ->
  journal_entries_id_seq st <= 2147483647 ->
  ledger_entries_id_seq st
  + Z.of_nat (List.length (JournalEntryInput.entries input)) <= 2147483648 ->
  exists r st',
    createJournalEntry sch now input st = (r, st')
    /\ accounts st' = accounts st
    /\ journal_entries_id_seq st' <= journal_entries_id_seq st + 1
    /\ ledger_entries_id_seq st'
       <= ledger_entries_id_seq st
          + Z.of_nat (List.length (JournalEntryInput.entries input))
    /\ if writes_header sch now input
       then journal_numbered (S n) st'
            /\ number_of_outcome r
               = if forallb (line_accepted sch (accounts st))
                      (JournalEntryInput.entries input)
                 then Some (entry_number_of (N.of_nat (S n)))
                 else None
       else journal_numbered n st' /\ number_of_outcome r = None.
Proof.
  intros Hinv Hjseq Hlroom.
  pose proof (generateEntryNumber_numbered n st Hinv Hjseq) as Hgen.
  assert (Hfree : ~ In (entry_number_of (N.of_nat (S n)))
                      (map JournalEntry.entryNumber (journalEntries st))).
  { destruct Hinv as (Hnum & _). rewrite Hnum. apply entry_number_not_in_seq. }
  assert (Hid : int4 (journal_entries_id_seq st) = true).
  { destruct Hinv as (_ & _ & Hn & _). unfold int4.
    apply andb_true_iff. split; apply Z.leb_le; lia. }
  unfold writes_header.
  destruct (createJournalEntry_cases sch now input st)
    as [[Hpass Hthrow]
       |[Hpass (m & Hm & [[Hwhy (e & x & Heq & Hx)]
                          |(Hh & Hnext & _ & k & x & r & Heq & Hk & Hx & Hr)])]];
    rewrite Hpass; cbn [andb].
  - do 2 eexists. split; [exact Hthrow|].
    split; [reflexivity|]. split; [lia|]. split; [lia|].
    split; [exact Hinv | reflexivity].
  - rewrite Hgen in Hm. injection Hm as <-.
    destruct Hwhy as [Hwhy|[Hwhy|[Hwhy|Hwhy]]].
    + rewrite Hwhy. do 2 eexists. split; [exact Heq|].
      cbn [accounts journal_entries_id_seq ledger_entries_id_seq].
      split; [reflexivity|]. split; [lia|]. split; [lia|].
      split; [apply journal_numbered_frame; [exact Hinv | lia] | reflexivity].
    + rewrite text_entry_number_of in Hwhy. discriminate.
    + exfalso. unfold has_next in Hwhy. apply Z.leb_gt in Hwhy. lia.
    + contradiction.
  - rewrite Hgen in Hm. injection Hm as <-. rewrite Hh.
    do 2 eexists. split; [exact Heq|].
    cbn [accounts journal_entries_id_seq ledger_entries_id_seq].
    split; [reflexivity|]. split; [lia|]. split; [lia|].
    split; [apply journal_numbered_succ; [exact Hinv | reflexivity..]|].
    pose proof (createJournalEntry_accepted sch now input st _
                  Hpass Hh (text_entry_number_of _) Hgen Hfree Hid Hlroom)
      as Hacc.
    destruct (forallb (line_accepted sch (accounts st))
                (JournalEntryInput.entries input)).
    + rewrite Heq in Hacc. injection Hacc as -> _. reflexivity.
    + destruct Hacc as [e He]. rewrite Heq in He. cbn [fst] in He.
      rewrite He. reflexivity.
Qed.

Lemma lines_of_posts_cons now input posts :
  lines_of_posts ((now, input) :: posts)
  = (List.length (JournalEntryInput.entries input) + lines_of_posts posts)%nat.
Proof. unfold lines_of_posts. cbn [flat_map snd]. apply length_app. Qed.

(** A sequence of posts on a journal numbered up to [n]: what each post
    gets, and the journal at the end. *)
Lemma post_all_numbered sch posts : forall (n : nat) (st : Db),
  journal_numbered n st ->
  journal_entries_id_seq st + Z.of_nat (List.length posts) <= 2147483648 ->
  ledger_entries_id_seq st + Z.of_nat (lines_of_posts posts) <= 2147483648 ->
  map number_of_outcome (fst (post_all sch posts st))
  = numbers_issued sch (accounts st) n posts
  /\ journal_numbered (n + headers sch posts) (snd (post_all sch posts st)).
Proof.
  induction posts as [|[now input] posts IH]; intros n st Hinv Hjroom Hlroom.
  - cbn. rewrite Nat.add_0_r. split; [reflexivity | exact Hinv].
  - cbn [post_all numbers_issued]. rewrite lines_of_posts_cons in Hlroom.
    cbn [List.length] in Hjroom.
    destruct (createJournalEntry_numbered sch n now input st Hinv
                ltac:(lia) ltac:(lia))
      as (r & st' & Heq & Hacc & Hj & Hl & Hres).
    rewrite Heq. unfold headers. cbn [filter fst snd].
    destruct (writes_header sch now input).
    + destruct Hres as [Hinv' Hr].
      destruct (IH (S n) st' Hinv' ltac:(lia) ltac:(lia)) as [IH1 IH2].
      destruct (post_all sch posts st') as [rs st2].
      cbn [fst snd map List.length] in *.
      rewrite Hr, IH1, Hacc. split; [reflexivity|].
      unfold headers in IH2.
      replace (n + S (List.length
                        (filter (fun p => writes_header sch (fst p) (snd p))
                           posts)))%nat
        with (S n + List.length
                      (filter (fun p => writes_header sch (fst p) (snd p))
                         posts))%nat
        by lia.
      exact IH2.
    + destruct Hres as [Hinv' Hr].
      destruct (IH n st' Hinv' ltac:(lia) ltac:(lia)) as [IH1 IH2].
      destruct (post_all sch posts st') as [rs st2].
      cbn [fst snd map] in *.
      rewrite Hr, IH1, Hacc. split; [reflexivity | exact IH2].
Qed.

Lemma posted_numbers (rs : list (Outcome JournalEntry.t)) :
  map JournalEntry.entryNumber (posted rs) = somes (map number_of_outcome rs).
Proof.
  induction rs as [|[e|err] rs IH]; cbn; [reflexivity | f_equal; exact IH | exact IH].
Qed.

(** The numbers issued are those of an increasing list of positions among
    the headers; when every header is followed by its lines, of all the
    headers. *)
Lemma numbers_issued_increasing sch chart posts : forall n : nat,
  exists ks,
    somes (numbers_issued sch chart n posts)
    = map (fun k => entry_number_of (N.of_nat k)) ks
    /\ StronglySorted lt ks
    /\ Forall (fun k => n < k <= n + headers sch posts)%nat ks
    /\ (headers_complete sch chart posts ->
        ks = seq (S n) (headers sch posts)).
Proof.
  induction posts as [|[now input] posts IH]; intros n.
  - exists []. cbn. repeat split; constructor.
  - cbn [numbers_issued]. unfold headers, headers_complete.
    cbn [filter fst snd].
    destruct (writes_header sch now input) eqn:Hw.
    + destruct (IH (S n)) as (ks & Hks & Hsorted & Hrange & Hall).
      destruct (forallb (line_accepted sch chart)
                  (JournalEntryInput.entries input)) eqn:Hlines.
      * exists (S n :: ks). cbn [somes map List.length].
        split; [rewrite Hks; reflexivity|].
        split.
        { constructor; [exact Hsorted|].
          eapply Forall_impl; [|exact Hrange]. cbv beta. intros k Hk. lia. }
        split.
        { constructor; [unfold headers in *; lia|].
          eapply Forall_impl; [|exact Hrange]. cbv beta.
          unfold headers. intros k Hk. lia. }
        intros Hc. inversion Hc as [|p ps _ Hc']; subst.
        cbn [seq]. f_equal. apply Hall, Hc'.
      * exists ks. cbn [somes List.length].
        split; [exact Hks|]. split; [exact Hsorted|].
        split.
        { eapply Forall_impl; [|exact Hrange]. cbv beta.
          unfold headers. intros k Hk. lia. }
        intros Hc. inversion Hc as [|p ps Hp _]; subst.
        cbn [fst snd] in Hp. specialize (Hp Hw). congruence.
    + destruct (IH n) as (ks & Hks & Hsorted & Hrange & Hall).
      exists ks. cbn [somes].
      split; [exact Hks|]. split; [exact Hsorted|].
      split; [exact Hrange|].
      intros Hc. inversion Hc as [|p ps _ Hc']; subst.
      apply Hall, Hc'.
Qed.

(** C6, as the code violates it.  On the empty store, a post whose two
    lines carry 10000000000000.00 each passes the balance test and gets
    the header "JE-0001"; the store then refuses its first line, whose
    amount does not fit the column, and the post throws, the header
    staying in the journal.  The next post, the first one to succeed, is
    numbered "JE-0002". *)
Lemma first_posted_entry_is_numbered_two :
  let rs := fst (post_all shared_schema overflow_then_deposit empty_db) in
  let st' := snd (post_all shared_schema overflow_then_deposit empty_db) in
  journalEntries empty_db = []
  /\ map number_of_outcome rs = [None; Some "JE-0002"]
  /\ nth_error rs 0 = Some (Throw (OutOfRange "numeric"))
  /\ map JournalEntry.entryNumber (posted rs) = ["JE-0002"]
  /\ map JournalEntry.entryNumber (journalEntries st') = ["JE-0001"; "JE-0002"]
  /\ map LedgerEntry.journalEntryId (ledgerEntries st') = [2; 2].
Proof. vm_compute. repeat split; reflexivity. Qed.

(** C6, amended.  Starting from an empty journal, with values left in the
    id sequences for the posts made, every post that passes the balance
    test and whose header the store takes writes a header, and these
    headers carry, in order, "JE-0001", "JE-0002", ...: each is "JE-"
    followed by the integer part of the latest number plus one, padded
    with zeros to four digits.  A post returns - with the number of its
    header - exactly when the store also takes all its lines; a header
    whose lines the store refuses keeps its number.  Hence the numbers of
    the posts that succeed have strictly increasing integer parts, are
    numbers of headers and are never issued twice; and when every header
    is followed by its lines they are exactly "JE-0001", "JE-0002", ...:
    those of the journal. *)
Theorem sequential_entry_numbers
    (sch : Schema) (posts : list (Z * JournalEntryInput.t)) (st : Db)
    (Hempty : journalEntries st = [])
    (Hseq : 1 <= journal_entries_id_seq st)
    (Hjroom :
       journal_entries_id_seq st + Z.of_nat (List.length posts) <= 2147483648)
    (Hlroom :
       ledger_entries_id_seq st + Z.of_nat (lines_of_posts posts) <= 2147483648) :
  let rs := fst (post_all sch posts st) in
  let st' := snd (post_all sch posts st) in
  let issued := map JournalEntry.entryNumber (posted rs) in
  map JournalEntry.entryNumber (journalEntries st')
  = map (fun k => entry_number_of (N.of_nat k)) (seq 1 (headers sch posts))
  /\ map number_of_outcome rs = numbers_issued sch (accounts st) 0 posts
  /\ (exists ks,
        issued = map (fun k => entry_number_of (N.of_nat k)) ks
        /\ map numeric_part issued = map (fun k => Js.Num (Z.of_nat k)) ks
        /\ StronglySorted lt ks
        /\ Forall (fun k => 1 <= k <= headers sch posts)%nat ks)
  /\ NoDup issued
  /\ (headers_complete sch (accounts st) posts ->
      issued
      = map (fun k => entry_number_of (N.of_nat k)) (seq 1 (List.length issued))
      /\ issued = map JournalEntry.entryNumber (journalEntries st')).
Proof.
  assert (Hinv : journal_numbered 0 st).
  { unfold journal_numbered. rewrite Hempty. cbn.
    split; [reflexivity|]. split; [constructor|]. split; [lia | reflexivity]. }
  destruct (post_all_numbered sch posts 0 st Hinv Hjroom Hlroom)
    as [Hout (Hnum & _)].
  cbv zeta. cbn [Nat.add] in Hnum.
  destruct (numbers_issued_increasing sch (accounts st) posts 0)
    as (ks & Hks & Hsorted & Hrange & Hall).
  assert (Hissued :
    map JournalEntry.entryNumber (posted (fst (post_all sch posts st)))
    = map (fun k => entry_number_of (N.of_nat k)) ks).
  { rewrite posted_numbers, Hout. exact Hks. }
  assert (Hheaders : (headers sch posts <= List.length posts)%nat).
  { unfold headers. apply filter_length_le. }
  split; [exact Hnum|]. split; [exact Hout|]. split; [|split].
  - exists ks. split; [exact Hissued|]. split; [|split; [exact Hsorted|]].
    + rewrite Hissued, map_map. apply map_ext_in. intros k Hk.
      rewrite Forall_forall in Hrange. specialize (Hrange k Hk).
      rewrite numeric_part_entry_number_of, to_number_safe.
      * f_equal. lia.
      * change (2 ^ 53) with 9007199254740992. lia.
    + eapply Forall_impl; [|exact Hrange]. cbv beta. intros k Hk. lia.
  - rewrite Hissued. apply Finite.Injective_map_NoDup.
    + intros a b Hab. apply entry_number_of_inj in Hab. lia.
    + clear -Hsorted. induction Hsorted as [|k ks Hs IH Hk]; constructor.
      * intros Hin. rewrite Forall_forall in Hk. specialize (Hk k Hin). lia.
      * exact IH.
  - intros Hc. specialize (Hall Hc). rewrite Hissued, Hall, Hnum.
    rewrite length_map, length_seq. split; reflexivity.
Qed.

(** Three posts on the empty store, the second one unbalanced. *)
Lemma sequential_entry_numbers_witness :
  let posts :=
    [ (1, JournalEntryInput.mk "Opening" None None None 1 None
            [LineInput.mk 1 10000 0 None; LineInput.mk 2 0 10000 None]);
      (2, JournalEntryInput.mk "Typo" None None None 1 None
            [LineInput.mk 1 10000 0 None; LineInput.mk 2 0 1000 None]);
      (3, JournalEntryInput.mk "Deposit" None None None 1 None
            [LineInput.mk 1 5000 0 None; LineInput.mk 2 0 5000 None]) ] in
  journalEntries empty_db = []
  /\ 1 <= journal_entries_id_seq empty_db
  /\ map JournalEntry.entryNumber
       (posted (fst (post_all shared_schema posts empty_db)))
     = ["JE-0001"; "JE-0002"]
  /\ NoDup (map JournalEntry.entryNumber
              (posted (fst (post_all shared_schema posts empty_db)))).
Proof.
  cbv zeta. split; [reflexivity|]. split; [cbn; lia|].
  split; [vm_compute; reflexivity|].
  eapply (sequential_entry_numbers shared_schema _ empty_db);
    [reflexivity | cbn; lia | cbn; lia | cbn; lia].
Defined.
(** ** Recording a sale *)

Lemma recordSale_eq sch now sale st :
  recordSale sch now sale st
  = match find (fun a => String.eqb (Account.code a) "1000") (accounts st),
          find (fun a => String.eqb (Account.code a) "4000") (accounts st),
          find (fun a => String.eqb (Account.code a) "5000") (accounts st),
          find (fun a => String.eqb (Account.code a) "1200") (accounts st)
    with
    | Some cash, Some revenue, Some cogs, Some inventory =>
        createJournalEntry sch now
          (JournalEntryInput.mk
             ("Sale #" ++ Js.String_ (Js.Num (saleId sale)) ++ " - "
                ++ paymentMethod sale)
             None (Some "sale") (Some (saleId sale)) (userId sale) None
             [ LineInput.mk (Account.id cash) (total sale) 0
                 (Some "Cash received from sale");
               LineInput.mk (Account.id revenue) 0 (total sale)
                 (Some "Revenue from sale");
               LineInput.mk (Account.id cogs) (costOfGoodsSold sale) 0
                 (Some "Cost of goods sold");
               LineInput.mk (Account.id inventory) 0 (costOfGoodsSold sale)
                 (Some "Inventory reduction") ]) st
    | _, _, _, _ => (Throw RequiredAccountsNotFound, st)
    end.
Proof.
  unfold recordSale, bind, getAccountByCode, query, throw.
  destruct (find _ (accounts st)) as [cash|];
    destruct (find (fun a => String.eqb (Account.code a) "4000") (accounts st))
      as [revenue|];
    destruct (find (fun a => String.eqb (Account.code a) "5000") (accounts st))
      as [cogs|];
    destruct (find (fun a => String.eqb (Account.code a) "1200") (accounts st))
      as [inventory|];
    reflexivity.
Qed.

(** In binary64, a number less itself plus zero is not above the
    tolerance: it is zero, or not a number. *)
Lemma sub_self_small (x : float) :
  (0.01 <? abs ((x + 0) - x))%float = false.
Proof.
  rewrite ltb_spec, abs_spec, sub_spec, add_spec.
  change (Prim2SF 0) with (S754_zero false).
  destruct (Prim2SF x) as [[|]| [|] | | s m e]; try reflexivity.
  cbn [SF64add SFadd SF64sub SFsub].
  rewrite Z.sub_diag. reflexivity.
Qed.

(** The four lines of a sale pass the balance test whatever the amounts:
    the two totals add the same two numbers in the same order. *)
Lemma sale_lines_balance description entryDate referenceType referenceId
    userId_ notes a1 a2 a3 a4 d1 d2 d3 d4 (t c : Z) :
  passes_balance_test
    (JournalEntryInput.mk description entryDate referenceType referenceId
       userId_ notes
       [ LineInput.mk a1 t 0 d1; LineInput.mk a2 0 t d2;
         LineInput.mk a3 c 0 d3; LineInput.mk a4 0 c d4 ])
  = true.
Proof.
  unfold passes_balance_test, total_debits, total_credits.
  cbn [JournalEntryInput.entries fold_left LineInput.debit LineInput.credit].
  change (Js.parseFloat 0) with 0%float.
  change (0 + 0)%float with 0%float.
  rewrite sub_self_small. reflexivity.
Qed.

Lemma find_by_code_in (code : string) (rows : list Account.t) (a : Account.t) :
  find (fun r => String.eqb (Account.code r) code) rows = Some a ->
  In a rows.
Proof. intros H. apply find_some in H. exact (proj1 H). Qed.

Lemma account_exists (rows : list Account.t) (a : Account.t) :
  In a rows -> existsb (fun r => Account.id r =? Account.id a) rows = true.
Proof.
  intros Hin. apply existsb_exists. exists a.
  split; [exact Hin | apply Z.eqb_refl].
Qed.

(** The store takes the four lines of a sale it can hold, against accounts
    of the chart. *)
Lemma sale_lines_accepted sch now sale st cash revenue cogs inventory :
  sale_accepted sch now sale = true ->
  chart_ids_in_range st ->
  In cash (accounts st) -> In revenue (accounts st) ->
  In cogs (accounts st) -> In inventory (accounts st) ->
  forallb (line_accepted sch (accounts st))
    [ LineInput.mk (Account.id cash) (total sale) 0
        (Some "Cash received from sale");
      LineInput.mk (Account.id revenue) 0 (total sale)
        (Some "Revenue from sale");
      LineInput.mk (Account.id cogs) (costOfGoodsSold sale) 0
        (Some "Cost of goods sold");
      LineInput.mk (Account.id inventory) 0 (costOfGoodsSold sale)
        (Some "Inventory reduction") ]
  = true.
Proof.
  intros Hsale Hchart H1 H2 H3 H4.
  unfold sale_accepted in Hsale.
  apply andb_true_iff in Hsale. destruct Hsale as [Hsale Hmig].
  apply andb_true_iff in Hsale. destruct Hsale as [Hsale Hc].
  apply andb_true_iff in Hsale. destruct Hsale as [_ Ht].
  unfold chart_ids_in_range in Hchart. rewrite Forall_forall in Hchart.
  cbn [forallb]. unfold line_accepted.
  cbn [LineInput.accountId LineInput.debit LineInput.credit
       LineInput.description text_or_null].
  rewrite (Hchart _ H1), (Hchart _ H2), (Hchart _ H3), (Hchart _ H4), Ht, Hc.
  rewrite !account_exists by assumption.
  change (numeric_15_2 0) with true.
  change (text "Cash received from sale") with true.
  change (text "Revenue from sale") with true.
  change (text "Cost of goods sold") with true.
  change (text "Inventory reduction") with true.
  cbn [andb].
  destruct (migrated sch); cbn [negb orb] in *; [|reflexivity].
  apply andb_true_iff in Hmig. destruct Hmig as [Hmig _].
  apply andb_true_iff in Hmig. destruct Hmig as [Hpt Hpc].
  unfold chk_ledger_entries_debit_credit. rewrite Hpt, Hpc.
  reflexivity.
Qed.

(** The store takes the header of a sale it can hold. *)
Lemma sale_header_accepted sch now sale entries :
  sale_accepted sch now sale = true ->
  header_accepted sch now
    (JournalEntryInput.mk
       ("Sale #" ++ Js.String_ (Js.Num (saleId sale)) ++ " - "
          ++ paymentMethod sale)
       None (Some "sale") (Some (saleId sale)) (userId sale) None entries)
  = true.
Proof.
  intros Hsale. unfold sale_accepted in Hsale.
  apply andb_true_iff in Hsale. destruct Hsale as [Hsale Hmig].
  apply andb_true_iff in Hsale. destruct Hsale as [Hsale _].
  apply andb_true_iff in Hsale. destruct Hsale as [Hsale _].
  apply andb_true_iff in Hsale. destruct Hsale as [Hsale Hu].
  apply andb_true_iff in Hsale. destruct Hsale as [Hsale Hs].
  apply andb_true_iff in Hsale. destruct Hsale as [Hnow Hp].
  unfold header_accepted.
  cbn [JournalEntryInput.entryDate JournalEntryInput.description
       JournalEntryInput.referenceType JournalEntryInput.referenceId
       JournalEntryInput.userId JournalEntryInput.notes or_default
       int4_or_null text_or_null].
  rewrite Hnow, Hs, Hu, !text_app, (text_String_int4 _ Hs), Hp.
  change (text "Sale #") with true. change (text " - ") with true.
  change (text "sale") with true. cbn [andb].
  destruct (migrated sch); cbn [negb orb] in *; [|reflexivity].
  apply andb_true_iff in Hmig. exact (proj2 Hmig).
Qed.

(** The input [recordSale] hands to [createJournalEntry]. *)
Lemma recordSale_recorded sch now sale st (n : nat)
    cash revenue cogs inventory :
  find (fun a => String.eqb (Account.code a) "1000") (accounts st) = Some cash ->
  find (fun a => String.eqb (Account.code a) "4000") (accounts st)
  = Some revenue ->
  find (fun a => String.eqb (Account.code a) "5000") (accounts st) = Some cogs ->
  find (fun a => String.eqb (Account.code a) "1200") (accounts st)
  = Some inventory ->
  chart_ids_in_range st ->
  journal_numbered n st ->
  journal_entries_id_seq st <= 2147483647 ->
  ledger_entries_id_seq st + 4 <= 2147483648 ->
  sale_accepted sch now sale = true ->
  let je :=
    JournalEntry.mk (journal_entries_id_seq st)
      (entry_number_of (N.of_nat (S n))) now
      ("Sale #" ++ Js.String_ (Js.Num (saleId sale)) ++ " - "
         ++ paymentMethod sale)
      (Some "sale") (Some (saleId sale)) (userId sale) "posted" None now now in
  recordSale sch now sale st
  = (Ok je,
     mkDb (accounts st) (accounts_id_seq st)
       (journalEntries st ++ [je]) (journal_entries_id_seq st + 1)
       (ledgerEntries st
          ++ [ LedgerEntry.mk (ledger_entries_id_seq st)
                 (journal_entries_id_seq st) (Account.id cash) (total sale) 0
                 (Some "Cash received from sale") now;
               LedgerEntry.mk (ledger_entries_id_seq st + 1)
                 (journal_entries_id_seq st) (Account.id revenue) 0
                 (total sale) (Some "Revenue from sale") now;
               LedgerEntry.mk (ledger_entries_id_seq st + 1 + 1)
                 (journal_entries_id_seq st) (Account.id cogs)
                 (costOfGoodsSold sale) 0 (Some "Cost of goods sold") now;
               LedgerEntry.mk (ledger_entries_id_seq st + 1 + 1 + 1)
                 (journal_entries_id_seq st) (Account.id inventory) 0
                 (costOfGoodsSold sale) (Some "Inventory reduction") now ])
       (ledger_entries_id_seq st + 4)).
Proof.
  intros H1 H2 H3 H4 Hchart Hinv Hjseq Hlseq Hsale.
  rewrite recordSale_eq, H1, H2, H3, H4.
  pose proof (generateEntryNumber_numbered n st Hinv Hjseq) as Hgen.
  assert (Hfree : ~ In (entry_number_of (N.of_nat (S n)))
                      (map JournalEntry.entryNumber (journalEntries st))).
  { destruct Hinv as (Hnum & _). rewrite Hnum.
    apply entry_number_not_in_seq. }
  assert (Hid : int4 (journal_entries_id_seq st) = true).
  { destruct Hinv as (_ & _ & Hn & _). unfold int4.
    apply andb_true_iff. split; apply Z.leb_le; lia. }
  match goal with
  | |- context [createJournalEntry sch now ?input st] =>
      pose proof (createJournalEntry_accepted sch now input st _
                    (sale_lines_balance _ _ _ _ _ _ _ _ _ _ _ _ _ _ _ _)
                    (sale_header_accepted sch now sale _ Hsale)
                    (text_entry_number_of _) Hgen Hfree Hid) as Hpost
  end.
  cbn [JournalEntryInput.entries List.length] in Hpost.
  specialize (Hpost ltac:(lia)).
  rewrite (sale_lines_accepted sch now sale st cash revenue cogs inventory
             Hsale Hchart
             (find_by_code_in _ _ _ H1) (find_by_code_in _ _ _ H2)
             (find_by_code_in _ _ _ H3) (find_by_code_in _ _ _ H4))
    in Hpost.
  cbn [JournalEntryInput.entries JournalEntryInput.description ledger_rows
       LineInput.accountId LineInput.debit LineInput.credit
       LineInput.description Js.or_else] in Hpost.
  exact Hpost.
Qed.



Lemma journal_numbered_seeded : journal_numbered 0 seeded_db.
Proof.
  assert (Hj : journalEntries seeded_db = []) by (vm_compute; reflexivity).
  assert (Hs : journal_entries_id_seq seeded_db = 1)
    by (vm_compute; reflexivity).
  unfold journal_numbered. rewrite Hj, Hs. cbn.
  split; [reflexivity|]. split; [constructor|]. split; [lia | reflexivity].
Qed.



Example recordSale_without_chart :
  recordSale shared_schema 5 (mkSaleData 42 1 11600 7000 "cash") empty_db
  = (Throw RequiredAccountsNotFound, empty_db).
Proof. reflexivity. Qed.

(** ** The financial statements *)

Lemma getAccountBalance_side (accountId : Z) (asOfDate : option Z) (st : Db) :
  exists b,
    getAccountBalance accountId asOfDate st = (Ok b, st)
    /\ balance b = normal_side_balance st accountId.
Proof.
  eexists. split; [apply getAccountBalance_eq|].
  unfold normal_side_balance. simpl.
  destruct (find _ (accounts st)); reflexivity.
Qed.

Lemma sum_of_app {A} (col : A -> Z) (l l' : list A) :
  sum_of col (l ++ l') = sum_of col l + sum_of col l'.
Proof. induction l as [|x l IH]; simpl; [reflexivity | rewrite IH; lia]. Qed.


Lemma balances_loop_eq asOfDate accts data total_ st :
  balances_loop asOfDate accts data total_ st
  = (Ok ((data ++ statement_rows st accts)%list,
         total_ + sum_of (fun a => normal_side_balance st (Account.id a)) accts),
     st).
Proof.
  revert data total_. induction accts as [|a accts IH]; intros data total_.
  - simpl. unfold ret. rewrite app_nil_r, Z.add_0_r. reflexivity.
  - cbn [balances_loop]. unfold bind.
    destruct (getAccountBalance_side (Account.id a) asOfDate st) as (b & Hb & Hside).
    rewrite Hb, IH, Hside. unfold statement_rows. cbn [map sum_of].
    rewrite <- app_assoc, Z.add_assoc. reflexivity.
Qed.

Lemma generateProfitAndLoss_eq startDate endDate st :
  generateProfitAndLoss startDate endDate st
  = (Ok (ProfitAndLoss.mk
           (StatementSection.mk
              (statement_rows st (active_of_type "revenue" st))
              (sum_of (fun a => normal_side_balance st (Account.id a))
                 (active_of_type "revenue" st)))
           (StatementSection.mk
              (statement_rows st (active_of_type "expense" st))
              (sum_of (fun a => normal_side_balance st (Account.id a))
                 (active_of_type "expense" st)))
           (sum_of (fun a => normal_side_balance st (Account.id a))
              (active_of_type "revenue" st)
            - sum_of (fun a => normal_side_balance st (Account.id a))
                (active_of_type "expense" st))),
     st).
Proof.
  unfold generateProfitAndLoss, bind, getAccountsByType, query, ret.
  rewrite !balances_loop_eq. reflexivity.
Qed.






(** The cash-flow statement.  [generateCashFlowStatement] never throws
    and leaves the store as it was.  Its only operating item is "Net
    Income", with the net income [generateProfitAndLoss] returns on the
    same store; the operating total and the net cash flow are that amount;
    investing and financing activities are empty with total 0. *)
Lemma cash_flow_is_net_income (st : Db) (startDate endDate : Z) :
  exists pl cf,
    generateProfitAndLoss startDate endDate st = (Ok pl, st)
    /\ generateCashFlowStatement startDate endDate st = (Ok cf, st)
    /\ CashFlowSection.items (CashFlowStatement.operatingActivities cf)
       = [CashFlowItem.mk "Net Income" (ProfitAndLoss.netIncome pl)]
    /\ CashFlowSection.total (CashFlowStatement.operatingActivities cf)
       = ProfitAndLoss.netIncome pl
    /\ CashFlowStatement.netCashFlow cf = ProfitAndLoss.netIncome pl
    /\ CashFlowStatement.investingActivities cf = CashFlowSection.mk [] 0
    /\ CashFlowStatement.financingActivities cf = CashFlowSection.mk [] 0.
Proof.
  do 2 eexists. split; [apply generateProfitAndLoss_eq|].
  unfold generateCashFlowStatement, bind, ret.
  rewrite generateProfitAndLoss_eq. repeat split.
Qed.

Example statements_after_the_sale :
  (exists pl,
     fst (generateProfitAndLoss 0 9 sale_scenario) = Ok pl
     /\ StatementSection.total (ProfitAndLoss.revenue pl) = 11600
     /\ StatementSection.total (ProfitAndLoss.expenses pl) = 7000
     /\ ProfitAndLoss.netIncome pl = 4600)
  /\ (exists bs,
        fst (generateBalanceSheet 9 sale_scenario) = Ok bs
        /\ StatementSection.total (BalanceSheet.assets bs) = 4600
        /\ StatementSection.total (BalanceSheet.liabilities bs) = 0
        /\ StatementSection.total (BalanceSheet.equity bs) = 0).
Proof.
  split; eexists; (split; [vm_compute; reflexivity|]); repeat split.
Qed.

(** ** What the service keeps true of the store *)

Lemma ledger_rows_ids now j d next entries :
  Forall
    (fun l => next <= LedgerEntry.id l
              < next + Z.of_nat (List.length entries))
    (ledger_rows now j d next entries)
  /\ NoDup (map LedgerEntry.id (ledger_rows now j d next entries)).
Proof.
  revert next. induction entries as [|e entries IH]; intros next.
  - split; constructor.
  - destruct (IH (next + 1)) as [Hr Hn]. cbn [ledger_rows List.length map].
    split.
    + constructor; [cbn [LedgerEntry.id]; lia|].
      eapply Forall_impl; [|exact Hr]. cbv beta. intros l Hl. lia.
    + cbn [LedgerEntry.id]. constructor; [|exact Hn].
      intros Hin. apply in_map_iff in Hin. destruct Hin as (l & Hid & Hl).
      rewrite Forall_forall in Hr. specialize (Hr l Hl). lia.
Qed.

Lemma NoDup_snoc {A} (l : list A) (x : A) :
  NoDup l -> ~ In x l -> NoDup (l ++ [x]).
Proof.
  intros Hl Hx. apply NoDup_app; [exact Hl | constructor; [intros []|constructor] |].
  intros a Ha [<-|[]]. exact (Hx Ha).
Qed.

Lemma below_not_in {A} (key : A -> Z) (l : list A) (bound : Z) :
  Forall (fun x => key x < bound) l -> ~ In bound (map key l).
Proof.
  intros Hall Hin. apply in_map_iff in Hin. destruct Hin as (x & Hk & Hx).
  rewrite Forall_forall in Hall. specialize (Hall x Hx). lia.
Qed.

Lemma Forall_below_succ {A} (key : A -> Z) (l : list A) (bound k : Z) :
  0 <= k -> Forall (fun x => key x < bound) l ->
  Forall (fun x => key x < bound + k) l.
Proof.
  intros Hk Hall. eapply Forall_impl; [|exact Hall]. cbv beta. intros x Hx. lia.
Qed.

Lemma store_ok_createAccount now a st :
  store_ok st -> store_ok (run (createAccount now a) st).
Proof.
  intros (Ha & Hai & Hac & Hrest).
  unfold run, createAccount, insert_account.
  destruct (existsb _ (accounts st)) eqn:Hex; cbn [snd]; unfold store_ok;
    cbn [accounts accounts_id_seq journalEntries journal_entries_id_seq
         ledgerEntries ledger_entries_id_seq].
  - split; [apply Forall_below_succ; [lia | exact Ha]|].
    split; [exact Hai|]. split; [exact Hac | exact Hrest].
  - split.
    { apply Forall_app. split; [apply Forall_below_succ; [lia | exact Ha]|].
      constructor; [cbn [Account.id]; lia | constructor]. }
    split.
    { rewrite map_app. apply NoDup_snoc; [exact Hai|].
      cbn [map Account.id]. apply below_not_in, Ha. }
    split; [|exact Hrest].
    rewrite map_app. apply NoDup_snoc; [exact Hac|].
    cbn [map Account.code]. intros Hin.
    apply in_map_iff in Hin. destruct Hin as (r & Hr & Hin).
    assert (Ht : existsb
              (fun r => String.eqb (Account.code r) (InsertAccount.code a))
              (accounts st) = true).
    { apply existsb_exists. exists r. split; [exact Hin|].
      apply String.eqb_eq, Hr. }
    congruence.
Qed.

Lemma store_ok_seed_loop now ds st :
  store_ok st ->
  store_ok
    (run (for_each ds (fun account => _ <- createAccount now account ;; ret tt))
       st).
Proof.
  revert st. induction ds as [|d ds IH]; intros st Hok; [exact Hok|].
  unfold run. rewrite for_each_cons, create_then_unit.
  pose proof (store_ok_createAccount now d st Hok) as Hstep.
  unfold run, createAccount in Hstep.
  destruct (insert_account now d st) as [[row|e] st']; cbn [snd] in Hstep.
  - apply IH, Hstep.
  - exact Hstep.
Qed.

Lemma store_ok_initialize now st :
  store_ok st -> store_ok (run (initializeChartOfAccounts now) st).
Proof.
  intros Hok. unfold run. rewrite initializeChartOfAccounts_eq.
  destruct (0 <? _)%nat; [exact Hok|].
  apply (store_ok_seed_loop now defaultAccounts st Hok).
Qed.

Lemma store_ok_createJournalEntry sch now input st :
  store_ok st -> store_ok (run (createJournalEntry sch now input) st).
Proof.
  intros Hok.
  destruct Hok as (Ha & Hai & Hac & Hj & Hji & Hjn & Hl & Hli & Hlj).
  unfold run.
  destruct (createJournalEntry_cases sch now input st)
    as [[_ Heq]
       |[_ (n & _ & [[_ (e & x & Heq & Hx)]
                     |(_ & _ & Hfree & k & x & r & Heq & Hk & Hx & _)])]];
    rewrite Heq; cbn [snd]; unfold store_ok;
    cbn [accounts accounts_id_seq journalEntries journal_entries_id_seq
         ledgerEntries ledger_entries_id_seq].
  - repeat split; assumption.
  - repeat split; try assumption.
    eapply Forall_impl; [|exact Hj]. cbv beta. intros r Hr. lia.
  - destruct (ledger_rows_ids now (journal_entries_id_seq st)
                (JournalEntryInput.description input)
                (ledger_entries_id_seq st)
                (firstn k (JournalEntryInput.entries input)))
      as [Hrows Hrows_nd].
    destruct (ledger_rows_columns now (journal_entries_id_seq st)
                (JournalEntryInput.description input)
                (ledger_entries_id_seq st)
                (firstn k (JournalEntryInput.entries input))) as (Hcolj & _).
    assert (Hlen : List.length (firstn k (JournalEntryInput.entries input)) = k).
    { apply firstn_length_le, Hk. }
    rewrite Hlen in Hrows.
    split; [exact Ha|]. split; [exact Hai|]. split; [exact Hac|].
    split.
    { apply Forall_app. split; [apply Forall_below_succ; [lia | exact Hj]|].
      constructor; [cbn [header_row JournalEntry.id]; lia | constructor]. }
    split.
    { rewrite map_app. apply NoDup_snoc; [exact Hji|].
      cbn [map header_row JournalEntry.id]. apply below_not_in, Hj. }
    split.
    { rewrite map_app. apply NoDup_snoc; [exact Hjn | exact Hfree]. }
    split.
    { apply Forall_app. split.
      - eapply Forall_impl; [|exact Hl]. cbv beta. intros l Hb. lia.
      - eapply Forall_impl; [|exact Hrows]. cbv beta. intros l Hb. lia. }
    split.
    { rewrite map_app. apply NoDup_app; [exact Hli | exact Hrows_nd|].
      intros y Hy Hy'. apply in_map_iff in Hy. destruct Hy as (l & <- & Hin).
      apply in_map_iff in Hy'. destruct Hy' as (l' & Hid & Hin').
      rewrite Forall_forall in Hl, Hrows.
      specialize (Hl l Hin). specialize (Hrows l' Hin'). lia. }
    apply Forall_app. split.
    + eapply Forall_impl; [|exact Hlj]. cbv beta. intros l Hin.
      rewrite map_app. apply in_or_app. left. exact Hin.
    + apply Forall_forall. intros l Hin.
      rewrite map_app. apply in_or_app. right.
      cbn [map header_row JournalEntry.id].
      left. apply (in_map LedgerEntry.journalEntryId) in Hin.
      rewrite Hcolj in Hin. apply in_map_iff in Hin.
      destruct Hin as (e & He & _). exact He.
Qed.

Lemma store_ok_recordSale sch now sale st :
  store_ok st -> store_ok (run (recordSale sch now sale) st).
Proof.
  intros Hok. unfold run. rewrite recordSale_eq.
  repeat match goal with
         | |- context [match find ?f ?l with _ => _ end] => destruct (find f l)
         end;
    try exact Hok;
    apply (store_ok_createJournalEntry sch now _ st Hok).
Qed.

Lemma update_status_columns (i : Z) (s : string) (rows : list JournalEntry.t) :
  map JournalEntry.id (update_status i s rows) = map JournalEntry.id rows
  /\ map JournalEntry.entryNumber (update_status i s rows)
     = map JournalEntry.entryNumber rows.
Proof.
  unfold update_status. rewrite !map_map.
  split; apply map_ext; intros e;
    destruct (JournalEntry.id e =? i); reflexivity.
Qed.

Lemma store_ok_void id st :
  store_ok st -> store_ok (run (voidJournalEntry id) st).
Proof.
  intros (Ha & Hai & Hac & Hj & Hji & Hjn & Hl & Hli & Hlj).
  unfold run, voidJournalEntry, store_ok.
  cbn [snd accounts accounts_id_seq journalEntries journal_entries_id_seq
       ledgerEntries ledger_entries_id_seq].
  destruct (update_status_columns id "void" (journalEntries st)) as [Hids Hnums].
  rewrite Hids, Hnums. repeat split; try assumption.
  apply Forall_forall. intros e Hin.
  assert (Hid : In (JournalEntry.id e) (map JournalEntry.id (journalEntries st))).
  { rewrite <- Hids. apply in_map, Hin. }
  apply in_map_iff in Hid. destruct Hid as (e0 & He0 & Hin0).
  rewrite Forall_forall in Hj. specialize (Hj e0 Hin0). lia.
Qed.

(** X4.  From a store whose ids lie below their sequences and are pairwise
    distinct, whose account codes and entry numbers are pairwise distinct
    and whose ledger lines all belong to a journal entry of the journal,
    every write of the service - [createAccount],
    [initializeChartOfAccounts], [createJournalEntry], [recordSale],
    [voidJournalEntry], whether it returns or throws - leaves a store of
    which the same is true. *)
Theorem store_ok_preserved (st : Db) (now : Z) (Hok : store_ok st) :
  (forall a, store_ok (run (createAccount now a) st))
  /\ store_ok (run (initializeChartOfAccounts now) st)
  /\ (forall sch input, store_ok (run (createJournalEntry sch now input) st))
  /\ (forall sch sale, store_ok (run (recordSale sch now sale) st))
  /\ (forall id, store_ok (run (voidJournalEntry id) st)).
Proof.
  split; [intros a; apply store_ok_createAccount, Hok|].
  split; [apply store_ok_initialize, Hok|].
  split; [intros sch input; apply store_ok_createJournalEntry, Hok|].
  split; [intros sch sale; apply store_ok_recordSale, Hok|].
  intros id. apply store_ok_void, Hok.
Qed.

Lemma store_ok_empty : store_ok empty_db.
Proof. unfold store_ok, empty_db. simpl. repeat split; constructor. Qed.

(** The empty store, then the seed. *)
Lemma store_ok_preserved_witness :
  store_ok empty_db /\ store_ok (run (initializeChartOfAccounts 0) empty_db).
Proof.
  split; [exact store_ok_empty|].
  destruct (store_ok_preserved empty_db 0 store_ok_empty) as (_ & Hseed & _).
  exact Hseed.
Defined.

(** ** Writing, then reading back *)

Lemma find_snoc {A} (f : A -> bool) (l : list A) (x : A) :
  (forall y, In y l -> f y = false) -> f x = true ->
  find f (l ++ [x]) = Some x.
Proof.
  induction l as [|y l IH]; intros Hl Hx; simpl.
  - rewrite Hx. reflexivity.
  - rewrite (Hl y (or_introl eq_refl)). apply IH; [|exact Hx].
    intros z Hz. apply Hl. right. exact Hz.
Qed.

Lemma filter_none {A} (f : A -> bool) (l : list A) :
  (forall y, In y l -> f y = false) -> filter f l = [].
Proof.
  induction l as [|y l IH]; intros Hl; simpl; [reflexivity|].
  rewrite (Hl y (or_introl eq_refl)). apply IH.
  intros z Hz. apply Hl. right. exact Hz.
Qed.

Lemma filter_all {A} (f : A -> bool) (l : list A) :
  (forall y, In y l -> f y = true) -> filter f l = l.
Proof.
  induction l as [|y l IH]; intros Hl; simpl; [reflexivity|].
  rewrite (Hl y (or_introl eq_refl)). f_equal. apply IH.
  intros z Hz. apply Hl. right. exact Hz.
Qed.

Lemma ledger_rows_line_columns now j d next entries :
  map line_columns (ledger_rows now j d next entries)
  = map (fun e => (j, LineInput.accountId e, LineInput.debit e,
                   LineInput.credit e)) entries
  /\ map LedgerEntry.description (ledger_rows now j d next entries)
     = map (fun e => Some (Js.or_else (LineInput.description e) d)) entries.
Proof.
  revert next. induction entries as [|e entries IH]; intros next.
  - split; reflexivity.
  - destruct (IH (next + 1)) as [H1 H2]. cbn [ledger_rows map].
    rewrite H1, H2. split; reflexivity.
Qed.

(** X7.  On a store the service keeps, an entry that [createJournalEntry]
    returns can be read back: it is posted, dated [entryDate] or else the
    time of the call; [getJournalEntry] finds it under its id;
    [getLedgerEntries] returns, in the order of the input, exactly one line
    per input line with the same account, debit and credit, and with the
    line's description or else the entry's; the detail route answers with
    the two together. *)
Theorem posted_entry_reads_back
    (sch : Schema) (now : Z) (input : JournalEntryInput.t) (st st' : Db)
    (je : JournalEntry.t)
    (Hok : store_ok st)
    (Hpost : createJournalEntry sch now input st = (Ok je, st')) :
  JournalEntry.status je = "posted"
  /\ JournalEntry.entryDate je
     = or_default (JournalEntryInput.entryDate input) now
  /\ getJournalEntry (JournalEntry.id je) st' = (Ok (Some je), st')
  /\ exists lines,
       getLedgerEntries (JournalEntry.id je) st' = (Ok lines, st')
       /\ map line_columns lines
          = map (fun e => (JournalEntry.id je, LineInput.accountId e,
                           LineInput.debit e, LineInput.credit e))
              (JournalEntryInput.entries input)
       /\ map LedgerEntry.description lines
          = map (fun e => Some (Js.or_else (LineInput.description e)
                                  (JournalEntryInput.description input)))
              (JournalEntryInput.entries input)
       /\ Routes.get_journal_entry (JournalEntry.id je) st'
          = (Routes.Json (je, lines), st').
Proof.
  destruct Hok as (_ & _ & _ & Hj & _ & _ & _ & _ & Hlj).
  destruct (createJournalEntry_cases sch now input st)
    as [[_ Heq]
       |[_ (n & _ & [[_ (e & x & Heq & _)]
                     |(_ & _ & _ & k & x & r & Heq & _ & _ & Hr)])]];
    rewrite Heq in Hpost; try discriminate.
  injection Hpost as -> <-. destruct Hr as [-> ->].
  rewrite firstn_all. unfold header_row.
  cbn [JournalEntry.status JournalEntry.entryDate JournalEntry.id].
  split; [reflexivity|]. split; [reflexivity|].
  assert (Hfind :
    find (fun e => JournalEntry.id e =? journal_entries_id_seq st)
      (journalEntries st ++
       [JournalEntry.mk (journal_entries_id_seq st) n
          (or_default (JournalEntryInput.entryDate input) now)
          (JournalEntryInput.description input)
          (JournalEntryInput.referenceType input)
          (JournalEntryInput.referenceId input)
          (JournalEntryInput.userId input) "posted"
          (JournalEntryInput.notes input) now now])
    = Some (JournalEntry.mk (journal_entries_id_seq st) n
              (or_default (JournalEntryInput.entryDate input) now)
              (JournalEntryInput.description input)
              (JournalEntryInput.referenceType input)
              (JournalEntryInput.referenceId input)
              (JournalEntryInput.userId input) "posted"
              (JournalEntryInput.notes input) now now)).
  { apply find_snoc.
    - intros e He. rewrite Forall_forall in Hj. specialize (Hj e He).
      apply Z.eqb_neq. lia.
    - cbn [JournalEntry.id]. apply Z.eqb_refl. }
  assert (Hfilter :
    filter (fun l => LedgerEntry.journalEntryId l =? journal_entries_id_seq st)
      (ledgerEntries st ++
       ledger_rows now (journal_entries_id_seq st)
         (JournalEntryInput.description input) (ledger_entries_id_seq st)
         (JournalEntryInput.entries input))
    = ledger_rows now (journal_entries_id_seq st)
        (JournalEntryInput.description input) (ledger_entries_id_seq st)
        (JournalEntryInput.entries input)).
  { rewrite filter_app, filter_none, filter_all; [reflexivity| |].
    - intros l Hl. apply Z.eqb_eq.
      destruct (ledger_rows_columns now (journal_entries_id_seq st)
                  (JournalEntryInput.description input)
                  (ledger_entries_id_seq st)
                  (JournalEntryInput.entries input)) as (Hc & _).
      apply (in_map LedgerEntry.journalEntryId) in Hl. rewrite Hc in Hl.
      apply in_map_iff in Hl. destruct Hl as (e & He & _). symmetry. exact He.
    - intros l Hl. rewrite Forall_forall in Hlj, Hj.
      specialize (Hlj l Hl). apply in_map_iff in Hlj.
      destruct Hlj as (e & He & Hin). specialize (Hj e Hin).
      apply Z.eqb_neq. lia. }
  split.
  { unfold getJournalEntry, query. cbn [journalEntries]. rewrite Hfind.
    reflexivity. }
  eexists. split.
  { unfold getLedgerEntries, query. cbn [ledgerEntries]. rewrite Hfilter.
    reflexivity. }
  destruct (ledger_rows_line_columns now (journal_entries_id_seq st)
              (JournalEntryInput.description input) (ledger_entries_id_seq st)
              (JournalEntryInput.entries input)) as [Hcols Hdesc].
  split; [exact Hcols|]. split; [exact Hdesc|].
  unfold Routes.get_journal_entry, getJournalEntry, getLedgerEntries, query.
  cbn [journalEntries ledgerEntries]. rewrite Hfind, Hfilter. reflexivity.
Qed.

(** A two-line post on the seeded chart. *)
Lemma posted_entry_reads_back_witness :
  let input :=
    JournalEntryInput.mk "Owner deposit" (Some 3) None None 1 None
      [LineInput.mk 1 50000 0 None;
       LineInput.mk 7 0 50000 (Some "Capital paid in")] in
  let je :=
    JournalEntry.mk 1 "JE-0001" 3 "Owner deposit" None None 1 "posted" None
      8 8 in
  store_ok seeded_db
  /\ exists st',
       createJournalEntry migrated_schema 8 input seeded_db = (Ok je, st')
       /\ getJournalEntry 1 st' = (Ok (Some je), st')
       /\ exists lines,
            getLedgerEntries 1 st' = (Ok lines, st')
            /\ map line_columns lines = [(1, 1, 50000, 0); (1, 7, 0, 50000)]
            /\ map LedgerEntry.description lines
               = [Some "Owner deposit"; Some "Capital paid in"].
Proof.
  cbv zeta.
  assert (Hok : store_ok seeded_db).
  { apply (store_ok_initialize 0 empty_db store_ok_empty). }
  split; [exact Hok|].
  eexists. split; [vm_compute; reflexivity|].
  match goal with
  | |- ?G /\ _ =>
      match G with
      | getJournalEntry _ ?s = _ =>
          destruct (posted_entry_reads_back migrated_schema 8
                      (JournalEntryInput.mk "Owner deposit" (Some 3) None None
                         1 None
                         [LineInput.mk 1 50000 0 None;
                          LineInput.mk 7 0 50000 (Some "Capital paid in")])
                      seeded_db s
                      (JournalEntry.mk 1 "JE-0001" 3 "Owner deposit" None None
                         1 "posted" None 8 8)
                      Hok)
            as (_ & _ & Hget & lines & Hlines & Hcols & Hdesc & _);
            [vm_compute; reflexivity|]
      end
  end.
  split; [exact Hget|].
  exists lines. split; [exact Hlines|]. split; [exact Hcols | exact Hdesc].
Defined.



(** ** How far the seed gets *)

(** The seeding loop, in full: it inserts the defaults in order up to the
    first one whose code is in the chart, and throws there. *)
Lemma seed_loop_eq now ds : forall st codes,
  (forall c, In c codes <-> In c (map Account.code (accounts st))) ->
  let pre := seeded_prefix codes ds in
  for_each ds (fun account => _ <- createAccount now account ;; ret tt) st
  = (if (List.length pre =? List.length ds)%nat
     then Ok tt else Throw (UniqueViolation "accounts_code_unique"),
     mkDb (accounts st ++ seed_rows now (accounts_id_seq st) pre)
       (accounts_id_seq st + Z.of_nat (List.length pre)
        + (if (List.length pre =? List.length ds)%nat then 0 else 1))
       (journalEntries st) (journal_entries_id_seq st)
       (ledgerEntries st) (ledger_entries_id_seq st)).
Proof.
  induction ds as [|d ds IH]; intros st codes Hcodes.
  - cbn. unfold ret. rewrite app_nil_r, !Z.add_0_r. destruct st; reflexivity.
  - cbv zeta. rewrite for_each_cons, create_then_unit.
    unfold insert_account. cbn [seeded_prefix].
    assert (Hsame :
      existsb (fun r => String.eqb (Account.code r) (InsertAccount.code d))
        (accounts st)
      = existsb (String.eqb (InsertAccount.code d)) codes).
    { apply eq_true_iff_eq. rewrite !existsb_exists. split.
      - intros (r & Hr & Heq). apply String.eqb_eq in Heq.
        exists (InsertAccount.code d). split; [|apply String.eqb_refl].
        apply Hcodes. rewrite <- Heq. apply in_map, Hr.
      - intros (c & Hc & Heq). apply String.eqb_eq in Heq. subst c.
        apply Hcodes in Hc. apply in_map_iff in Hc.
        destruct Hc as (r & Hr & Hin). exists r. split; [exact Hin|].
        apply String.eqb_eq, Hr. }
    rewrite Hsame.
    destruct (existsb (String.eqb (InsertAccount.code d)) codes).
    + cbn [List.length seed_rows Nat.eqb]. rewrite app_nil_r.
      f_equal. f_equal. lia.
    + match goal with
      | |- for_each ds _ ?s = _ =>
          specialize (IH s (InsertAccount.code d :: codes))
      end.
      cbv zeta in IH. rewrite IH.
      * cbn [accounts accounts_id_seq journalEntries journal_entries_id_seq
             ledgerEntries ledger_entries_id_seq List.length seed_rows Nat.eqb].
        rewrite <- app_assoc. cbn [app].
        destruct (List.length (seeded_prefix (InsertAccount.code d :: codes) ds)
                  =? List.length ds)%nat;
          (f_equal; f_equal; lia).
      * intros c. cbn [accounts]. rewrite map_app, in_app_iff.
        cbn [map Account.code In]. rewrite (Hcodes c). tauto.
Qed.


(** ** The seed, then a sale *)

Lemma seed_rows_ids now next ds :
  Forall
    (fun a => next <= Account.id a < next + Z.of_nat (List.length ds))
    (seed_rows now next ds).
Proof.
  revert next. induction ds as [|d ds IH]; intros next.
  - constructor.
  - cbn [seed_rows List.length]. constructor.
    + cbn [Account.id]. lia.
    + eapply Forall_impl; [|apply IH]. cbv beta. intros a Ha. lia.
Qed.

(** X10.  The seed establishes what [recordSale] needs.  On a store with
    no account at all, with seventeen ids left for the chart, after
    [initializeChartOfAccounts] the four codes resolve; a sale that the
    store can hold, on a journal numbered by the posts of the service up
    to [n], with values left in the id sequences, is then posted under the
    number [n + 1] with its four lines against the first, ninth, eleventh
    and third account of the seed: Cash, Sales Revenue, Cost of Goods
    Sold, Inventory. *)
Theorem seed_then_sale
    (sch : Schema) (st : Db) (now now' : Z) (sale : SaleData) (n : nat)
    (Hempty : accounts st = [])
    (Hids : -2147483648 <= accounts_id_seq st
            /\ accounts_id_seq st + 16 <= 2147483647)
    (Hnum : journal_numbered n st)
    (Hjseq : journal_entries_id_seq st <= 2147483647)
    (Hlseq : ledger_entries_id_seq st + 4 <= 2147483648)
    (Hsale : sale_accepted sch now' sale = true) :
  exists je st' lines,
    fst (initializeChartOfAccounts now st) = Ok tt
    /\ recordSale sch now' sale (run (initializeChartOfAccounts now) st)
       = (Ok je, st')
    /\ JournalEntry.entryNumber je = entry_number_of (N.of_nat (S n))
    /\ journalEntries st' = (journalEntries st ++ [je])%list
    /\ ledgerEntries st' = (ledgerEntries st ++ lines)%list
    /\ map line_columns lines
       = [ (JournalEntry.id je, accounts_id_seq st, total sale, 0);
           (JournalEntry.id je, accounts_id_seq st + 8, 0, total sale);
           (JournalEntry.id je, accounts_id_seq st + 10,
            costOfGoodsSold sale, 0);
           (JournalEntry.id je, accounts_id_seq st + 2, 0,
            costOfGoodsSold sale) ].
Proof.
  assert (Hseed : initializeChartOfAccounts now st
                  = for_each defaultAccounts
                      (fun account => _ <- createAccount now account ;; ret tt)
                      st).
  { rewrite initializeChartOfAccounts_eq, Hempty. reflexivity. }
  pose proof (seed_loop_eq now defaultAccounts st [] ) as Hloop.
  cbv zeta in Hloop. rewrite Hempty in Hloop.
  specialize (Hloop (fun c => iff_refl _)).
  change (seeded_prefix [] defaultAccounts) with defaultAccounts in Hloop.
  rewrite Nat.eqb_refl in Hloop. cbn [app] in Hloop.
  rewrite <- Hseed in Hloop.
  set (st1 := run (initializeChartOfAccounts now) st).
  assert (Hst1 : st1 = snd (initializeChartOfAccounts now st)) by reflexivity.
  rewrite Hloop in Hst1. cbn [snd] in Hst1.
  assert (Hj1 : journalEntries st1 = journalEntries st)
    by (rewrite Hst1; reflexivity).
  assert (Hjs1 : journal_entries_id_seq st1 = journal_entries_id_seq st)
    by (rewrite Hst1; reflexivity).
  assert (Hl1 : ledgerEntries st1 = ledgerEntries st)
    by (rewrite Hst1; reflexivity).
  assert (Hls1 : ledger_entries_id_seq st1 = ledger_entries_id_seq st)
    by (rewrite Hst1; reflexivity).
  assert (Hacc1 : accounts st1
                  = seed_rows now (accounts_id_seq st) defaultAccounts)
    by (rewrite Hst1; reflexivity).
  assert (Hnum1 : journal_numbered n st1).
  { unfold journal_numbered in *. rewrite Hj1, Hjs1. exact Hnum. }
  assert (Hchart1 : chart_ids_in_range st1).
  { unfold chart_ids_in_range. rewrite Hacc1.
    eapply Forall_impl; [|apply seed_rows_ids]. cbv beta.
    change (Z.of_nat (List.length defaultAccounts)) with 17.
    intros a Ha. unfold int4. apply andb_true_iff.
    split; apply Z.leb_le; lia. }
  assert (Hfinds :
    exists cash revenue cogs inventory,
      find (fun a => String.eqb (Account.code a) "1000") (accounts st1)
      = Some cash
      /\ find (fun a => String.eqb (Account.code a) "4000") (accounts st1)
         = Some revenue
      /\ find (fun a => String.eqb (Account.code a) "5000") (accounts st1)
         = Some cogs
      /\ find (fun a => String.eqb (Account.code a) "1200") (accounts st1)
         = Some inventory
      /\ Account.id cash = accounts_id_seq st
      /\ Account.id revenue = accounts_id_seq st + 8
      /\ Account.id cogs = accounts_id_seq st + 10
      /\ Account.id inventory = accounts_id_seq st + 2).
  { rewrite Hacc1. unfold defaultAccounts, default_account.
    cbn [seed_rows find Account.code Account.id InsertAccount.code
         InsertAccount.name InsertAccount.type InsertAccount.subtype
         InsertAccount.normalBalance InsertAccount.description
         InsertAccount.isActive InsertAccount.isSystem
         InsertAccount.parentAccountId String.eqb Ascii.eqb Bool.eqb].
    do 4 eexists.
    repeat (split; [reflexivity|]).
    cbn [Account.id]. repeat split; lia. }
  destruct Hfinds
    as (cash & revenue & cogs & inventory & H1 & H2 & H3 & H4
        & Hi1 & Hi2 & Hi3 & Hi4).
  pose proof (recordSale_recorded sch now' sale st1 n cash revenue cogs
                inventory H1 H2 H3 H4 Hchart1 Hnum1
                ltac:(rewrite Hjs1; exact Hjseq)
                ltac:(rewrite Hls1; exact Hlseq) Hsale) as Hpost.
  cbv zeta in Hpost.
  do 3 eexists. split; [rewrite Hloop; reflexivity|].
  split; [exact Hpost|].
  cbn [journalEntries ledgerEntries JournalEntry.entryNumber JournalEntry.id].
  rewrite Hj1, Hl1, Hi1, Hi2, Hi3, Hi4.
  split; [reflexivity|]. split; [reflexivity|]. split; [reflexivity|].
  reflexivity.
Qed.

Lemma journal_numbered_empty : journal_numbered 0 empty_db.
Proof.
  unfold journal_numbered, empty_db. cbn.
  split; [reflexivity|]. split; [constructor|]. split; [lia | reflexivity].
Qed.

(** The empty store, the seed, and the sale of the specification, on the
    migration's database. *)
Lemma seed_then_sale_witness :
  accounts empty_db = []
  /\ sale_accepted migrated_schema 5 (mkSaleData 42 1 11600 7000 "cash") = true
  /\ exists je st' lines,
       recordSale migrated_schema 5 (mkSaleData 42 1 11600 7000 "cash")
         (run (initializeChartOfAccounts 0) empty_db) = (Ok je, st')
       /\ JournalEntry.entryNumber je = "JE-0001"
       /\ ledgerEntries st' = lines
       /\ map line_columns lines
          = [ (JournalEntry.id je, 1, 11600, 0);
              (JournalEntry.id je, 9, 0, 11600);
              (JournalEntry.id je, 11, 7000, 0);
              (JournalEntry.id je, 3, 0, 7000) ].
Proof.
  split; [reflexivity|]. split; [vm_compute; reflexivity|].
  destruct (seed_then_sale migrated_schema empty_db 0 5
              (mkSaleData 42 1 11600 7000 "cash") 0 eq_refl)
    as (je & st' & lines & _ & Hsale & Hnumber & _ & Hl & Hcols);
    [cbn; lia
    | exact journal_numbered_empty
    | cbn; lia
    | cbn; lia
    | vm_compute; reflexivity |].
  exists je, st', lines. split; [exact Hsale|].
  split; [exact Hnumber|]. split; [exact Hl|]. exact Hcols.
Defined.

(** ** The account ledger and the balance *)




(** ** Listing the accounts *)

Lemma filter_and {A} (f g : A -> bool) (l : list A) :
  filter (fun a => f a && g a) l = filter f (filter g l).
Proof.
  induction l as [|a l IH]; simpl; [reflexivity|].
  destruct (g a); simpl.
  - rewrite andb_true_r. destruct (f a); rewrite IH; reflexivity.
  - rewrite andb_false_r. exact IH.
Qed.

(** X12.  The account listing shows active accounts only.  Asked for a
    type, the route returns exactly the accounts of the unfiltered listing
    that have this type, in the same order; an empty type is no filter.
    The listing never writes. *)
Theorem accounts_listing_by_type (st : Db) :
  exists listing,
    Routes.get_accounts None st = (Routes.Json listing, st)
    /\ Routes.get_accounts (Some "") st = (Routes.Json listing, st)
    /\ getAllAccounts st = (Ok listing, st)
    /\ Forall (fun a => Account.isActive a = true /\ In a (accounts st)) listing
    /\ (forall type,
          getAccountsByType type st
          = (Ok (filter (fun a => String.eqb (Account.type a) type) listing), st))
    /\ (forall type,
          type <> "" ->
          Routes.get_accounts (Some type) st
          = (Routes.Json
               (filter (fun a => String.eqb (Account.type a) type) listing),
             st)).
Proof.
  eexists. split; [reflexivity|]. split; [reflexivity|]. split; [reflexivity|].
  split; [|split].
  - apply Forall_forall. intros a Ha. apply filter_In in Ha.
    destruct Ha as [Hin Hact]. split; assumption.
  - intros type. unfold getAccountsByType, query. rewrite filter_and.
    reflexivity.
  - intros type Hne. destruct type as [|c t]; [contradiction|].
    unfold Routes.get_accounts, getAccountsByType, query.
    rewrite filter_and. reflexivity.
Qed.

(** ** Voiding twice, and numbering after a void *)

Lemma set_status_twice (s : string) (e : JournalEntry.t) :
  JournalEntry.set_status s (JournalEntry.set_status s e)
  = JournalEntry.set_status s e.
Proof. reflexivity. Qed.

Lemma update_status_twice (i : Z) (s : string) (rows : list JournalEntry.t) :
  update_status i s (update_status i s rows) = update_status i s rows.
Proof.
  unfold update_status. rewrite map_map. apply map_ext. intros e.
  destruct (JournalEntry.id e =? i) eqn:He.
  - cbn [JournalEntry.set_status JournalEntry.id]. rewrite He. reflexivity.
  - rewrite He. reflexivity.
Qed.

Lemma last_by_id_update (i : Z) (s : string) (rows : list JournalEntry.t) :
  option_map JournalEntry.entryNumber (last_by_id (update_status i s rows))
  = option_map JournalEntry.entryNumber (last_by_id rows).
Proof.
  set (g := fun e => if JournalEntry.id e =? i
                     then JournalEntry.set_status s e else e).
  assert (Hid : forall e, JournalEntry.id (g e) = JournalEntry.id e).
  { intros e. unfold g. destruct (JournalEntry.id e =? i); reflexivity. }
  assert (Hnum : forall e, JournalEntry.entryNumber (g e)
                           = JournalEntry.entryNumber e).
  { intros e. unfold g. destruct (JournalEntry.id e =? i); reflexivity. }
  assert (Hfold : forall rows acc,
            fold_left
              (fun best e =>
                 match best with
                 | None => Some e
                 | Some b =>
                     if JournalEntry.id b <? JournalEntry.id e
                     then Some e else Some b
                 end) (map g rows) (option_map g acc)
            = option_map g
                (fold_left
                   (fun best e =>
                      match best with
                      | None => Some e
                      | Some b =>
                          if JournalEntry.id b <? JournalEntry.id e
                          then Some e else Some b
                      end) rows acc)).
  { clear rows. induction rows as [|e rows IH]; intros acc; [reflexivity|].
    cbn [map fold_left]. rewrite <- IH. f_equal.
    destruct acc as [b|]; cbn [option_map]; [|reflexivity].
    rewrite !Hid. destruct (JournalEntry.id b <? JournalEntry.id e); reflexivity. }
  unfold last_by_id, update_status. fold g.
  change (@None JournalEntry.t) with (option_map g None) at 1.
  rewrite Hfold.
  destruct (fold_left _ rows None) as [b|]; cbn [option_map]; [|reflexivity].
  rewrite Hnum. reflexivity.
Qed.

(** X13.  Voiding is idempotent and does not disturb the numbering: a
    second [voidJournalEntry] of the same id returns what the first
    returned and leaves the store as the first left it, and the entry
    number the next post will take is the same after a void as before. *)
Theorem void_twice_is_void_once (st : Db) (id : Z) :
  run (voidJournalEntry id) (run (voidJournalEntry id) st)
  = run (voidJournalEntry id) st
  /\ fst (voidJournalEntry id (run (voidJournalEntry id) st))
     = fst (voidJournalEntry id st)
  /\ (forall other,
        fst (generateEntryNumber (run (voidJournalEntry other) st))
        = fst (generateEntryNumber st)).
Proof.
  unfold run, voidJournalEntry.
  cbn [fst snd accounts accounts_id_seq journalEntries journal_entries_id_seq
       ledgerEntries ledger_entries_id_seq].
  rewrite update_status_twice.
  split; [reflexivity|]. split; [reflexivity|].
  intros other. unfold generateEntryNumber, bind, query.
  cbn [journalEntries].
  pose proof (last_by_id_update other "void" (journalEntries st)) as Hlast.
  destruct (last_by_id (update_status other "void" (journalEntries st))) as [b'|],
    (last_by_id (journalEntries st)) as [b|];
    cbn [option_map] in Hlast; try discriminate; [|reflexivity].
  injection Hlast as Hnum. cbn [fst ret]. unfold ret. cbn [fst].
  rewrite Hnum. reflexivity.
Qed.

(** ** Entry numbers after the mock seed *)

Lemma digits_nonempty (n : N) : Js.digits n <> "".
Proof.
  unfold Js.digits. destruct n as [|p]; [discriminate|].
  cbn [N.to_uint].
  pose proof (DecimalPos.Unsigned.to_uint_nonnil p) as Hnil.
  destruct (Pos.to_uint p); [contradiction | discriminate ..].
Qed.

Lemma padStart_any_nonempty (width : nat) (n : N) :
  Js.padStart width "0" (Js.digits n) <> "".
Proof.
  unfold Js.padStart. pose proof (digits_nonempty n) as Hne.
  destruct (Js.repeat_char "0" (width - String.length (Js.digits n)));
    [exact Hne | discriminate].
Qed.

Lemma parse_padded (width : nat) (n : N) :
  Js.parse_digits 10 (Js.padStart width "0" (Js.digits n)) (Some 0%N) = Some n.
Proof.
  unfold Js.padStart. rewrite parse_digits_zeros, parse_digits_of_digits.
  reflexivity.
Qed.

Lemma numeric_part_padded (width : nat) (n : N) :
  numeric_part (padded_entry_number width n) = Js.to_number (Z.of_N n).
Proof.
  assert (Hdigits : digits_only (Js.padStart width "0" (Js.digits n)) = true).
  { unfold Js.padStart, Js.digits.
    rewrite digits_only_app, digits_only_zeros, digits_only_uint. reflexivity. }
  unfold numeric_part, padded_entry_number.
  rewrite split_entry_number by exact Hdigits.
  cbn [nth_error]. rewrite or_else_nonempty by apply padStart_any_nonempty.
  rewrite parseInt_digits_only
    by (exact Hdigits || apply padStart_any_nonempty).
  rewrite parse_padded. reflexivity.
Qed.

(** X14.  When the entry of greatest id carries "JE-" and an integer [n]
    padded with zeros to any width (4 by the service, 6 by the mock seed),
    with [n + 1] below 2^53, the next number is "JE-" and [n + 1] padded
    to four digits, and it differs from every number of that form whose
    integer is at most [n]. *)
Theorem next_number_after_padded
    (st : Db) (width : nat) (n : N) (b : JournalEntry.t)
    (Hlast : last_by_id (journalEntries st) = Some b)
    (Hnum : JournalEntry.entryNumber b = padded_entry_number width n)
    (Hsafe : (n + 1 < 2 ^ 53)%N) :
  generateEntryNumber st = (Ok (entry_number_of (n + 1)), st)
  /\ (forall width' k,
        (k <= n)%N ->
        padded_entry_number width' k <> entry_number_of (n + 1)).
Proof.
  assert (Hsafe' : Z.of_N n + 1 < 2 ^ 53).
  { change (2 ^ 53) with (Z.of_N (2 ^ 53)). lia. }
  split.
  - unfold generateEntryNumber, bind, query. rewrite Hlast.
    fold (numeric_part (JournalEntry.entryNumber b)).
    rewrite Hnum, numeric_part_padded, String_of_succ by exact Hsafe'.
    reflexivity.
  - intros width' k Hk Heq.
    unfold padded_entry_number, entry_number_of in Heq.
    cbn [String.append] in Heq. injection Heq as Heq.
    apply (f_equal (fun s => Js.parse_digits 10 s (Some 0%N))) in Heq.
    rewrite !parse_padded in Heq. injection Heq as Heq. lia.
Qed.

(** A journal whose latest entry carries the mock seed's "JE-000123". *)
Lemma next_number_after_padded_witness :
  let b :=
    JournalEntry.mk 123 "JE-000123" 0 "Sale #123 - cash" (Some "sale")
      (Some 123) 1 "posted" None 0 0 in
  let st := mkDb [] 1 [b] 124 [] 1 in
  last_by_id (journalEntries st) = Some b
  /\ JournalEntry.entryNumber b = padded_entry_number 6 123
  /\ (123 + 1 < 2 ^ 53)%N
  /\ generateEntryNumber st = (Ok "JE-0124", st).
Proof.
  cbv zeta. split; [reflexivity|]. split; [reflexivity|].
  split; [reflexivity|].
  apply (next_number_after_padded
           (mkDb [] 1
              [JournalEntry.mk 123 "JE-000123" 0 "Sale #123 - cash"
                 (Some "sale") (Some 123) 1 "posted" None 0 0] 124 [] 1)
           6 123
           (JournalEntry.mk 123 "JE-000123" 0 "Sale #123 - cash" (Some "sale")
              (Some 123) 1 "posted" None 0 0));
    reflexivity.
Defined.

(** At 2^53 the number stops moving: the next number is the one the
    latest entry carries, and the post that asks for it is refused. *)
Example next_number_at_2_53 :
  let b :=
    JournalEntry.mk 7 "JE-9007199254740992" 0 "Adjustment" None None 1
      "posted" None 0 0 in
  let st := mkDb [] 1 [b] 8 [] 1 in
  generateEntryNumber st = (Ok "JE-9007199254740992", st)
  /\ fst (createJournalEntry shared_schema 9
            (JournalEntryInput.mk "Deposit" None None None 1 None
               [LineInput.mk 1 10000 0 None; LineInput.mk 2 0 10000 None]) st)
     = Throw (UniqueViolation "journal_entries_entry_number_unique").
Proof. vm_compute. split; reflexivity. Qed.

(** ** What the route accepts *)

(** In binary64, what is above a bound is not below it. *)
Lemma ltb_leb (x y : float) : (x <? y)%float = true -> (x <=? y)%float = true.
Proof.
  rewrite ltb_spec, leb_spec. unfold SFltb, SFleb.
  destruct (SFcompare (Prim2SF x) (Prim2SF y)) as [[| |]|];
    intros H; (reflexivity || discriminate H).
Qed.

(** An input that passes the balance test of the route passes the one of
    [createJournalEntry]. *)
Lemma route_test_is_stricter (input : JournalEntryInput.t) :
  (0.01 <=? abs (total_debits (JournalEntryInput.entries input)
                 - total_credits (JournalEntryInput.entries input)))%float
  = false ->
  passes_balance_test input = true.
Proof.
  intros Hroute. unfold passes_balance_test.
  destruct (0.01 <? _)%float eqn:Hlt; [|reflexivity].
  apply ltb_leb in Hlt. congruence.
Qed.

(** X15.  A request that passes the request schema and the balance test
    of the route - its totals, added as doubles, less than 0.01 apart -
    and whose header and lines the store can hold, on a journal numbered
    by the posts of the service up to [n] with values left in the id
    sequences, is posted: the answer is the new entry, numbered [n + 1]
    and posted; the journal grows by it alone and the ledger by one line
    per line of the request, in order, with the amounts the strings
    denote. *)
Theorem balanced_body_is_posted
    (sch : Schema) (now : Z) (body : RequestBody.t)
    (input : JournalEntryInput.t) (st : Db) (n : nat)
    (Hschema : Routes.createJournalEntrySchema body = Some input)
    (Hbalanced :
       (0.01 <=? abs (total_debits (JournalEntryInput.entries input)
                      - total_credits (JournalEntryInput.entries input)))%float
       = false)
    (Hheader : header_accepted sch now input = true)
    (Hlines :
       forallb (line_accepted sch (accounts st))
         (JournalEntryInput.entries input) = true)
    (Hnum : journal_numbered n st)
    (Hjseq : journal_entries_id_seq st <= 2147483647)
    (Hlseq :
       ledger_entries_id_seq st
       + Z.of_nat (List.length (JournalEntryInput.entries input))
       <= 2147483648) :
  exists je st' lines,
    Routes.post_journal_entries sch now body st = (Routes.Json je, st')
    /\ JournalEntry.entryNumber je = entry_number_of (N.of_nat (S n))
    /\ JournalEntry.status je = "posted"
    /\ JournalEntry.description je = RequestBody.description body
    /\ journalEntries st' = (journalEntries st ++ [je])%list
    /\ ledgerEntries st' = (ledgerEntries st ++ lines)%list
    /\ accounts st' = accounts st
    /\ map line_columns lines
       = map (fun e => (JournalEntry.id je, RequestLine.accountId e,
                        Routes.cents_of (RequestLine.debit e),
                        Routes.cents_of (RequestLine.credit e)))
           (RequestBody.entries body).
Proof.
  pose proof (generateEntryNumber_numbered n st Hnum Hjseq) as Hgen.
  assert (Hfree : ~ In (entry_number_of (N.of_nat (S n)))
                      (map JournalEntry.entryNumber (journalEntries st))).
  { destruct Hnum as (Hnumbers & _). rewrite Hnumbers.
    apply entry_number_not_in_seq. }
  assert (Hid : int4 (journal_entries_id_seq st) = true).
  { destruct Hnum as (_ & _ & Hn & _). unfold int4.
    apply andb_true_iff. split; apply Z.leb_le; lia. }
  pose proof (createJournalEntry_accepted sch now input st _
                (route_test_is_stricter input Hbalanced)
                Hheader (text_entry_number_of _) Hgen Hfree Hid Hlseq)
    as Hpost.
  rewrite Hlines in Hpost.
  unfold Routes.post_journal_entries. rewrite Hschema.
  fold (total_debits (JournalEntryInput.entries input)).
  fold (total_credits (JournalEntryInput.entries input)).
  rewrite Hbalanced, Hpost.
  assert (Hinput : JournalEntryInput.description input
                   = RequestBody.description body
                   /\ JournalEntryInput.entries input
                      = map Routes.line_of (RequestBody.entries body)).
  { unfold Routes.createJournalEntrySchema in Hschema.
    destruct (_ && _); [|discriminate].
    injection Hschema as <-. split; reflexivity. }
  destruct Hinput as [Hdesc Hentries].
  do 3 eexists. split; [reflexivity|].
  cbn [header_row JournalEntry.entryNumber JournalEntry.status
       JournalEntry.description JournalEntry.id journalEntries ledgerEntries
       accounts].
  split; [reflexivity|]. split; [reflexivity|]. split; [exact Hdesc|].
  split; [reflexivity|]. split; [reflexivity|]. split; [reflexivity|].
  destruct (ledger_rows_line_columns now (journal_entries_id_seq st)
              (JournalEntryInput.description input) (ledger_entries_id_seq st)
              (JournalEntryInput.entries input)) as [Hcols _].
  rewrite Hcols, Hentries, map_map. reflexivity.
Qed.

(** A request of two lines on the seeded chart, on the migration's
    database. *)
Lemma balanced_body_is_posted_witness :
  let body :=
    RequestBody.mk "Owner deposit" None None None 1 None
      [RequestLine.mk 1 "500.00" "0.00" None;
       RequestLine.mk 7 "0" "500" None] in
  let input :=
    JournalEntryInput.mk "Owner deposit" None None None 1 None
      [LineInput.mk 1 50000 0 None; LineInput.mk 7 0 50000 None] in
  Routes.createJournalEntrySchema body = Some input
  /\ header_accepted migrated_schema 8 input = true
  /\ forallb (line_accepted migrated_schema (accounts seeded_db))
       (JournalEntryInput.entries input) = true
  /\ exists je st',
       Routes.post_journal_entries migrated_schema 8 body seeded_db
       = (Routes.Json je, st')
       /\ JournalEntry.entryNumber je = "JE-0001"
       /\ JournalEntry.status je = "posted"
       /\ journalEntries st' = [je].
Proof.
  cbv zeta.
  split; [vm_compute; reflexivity|].
  split; [vm_compute; reflexivity|].
  split; [vm_compute; reflexivity|].
  destruct (balanced_body_is_posted migrated_schema 8
              (RequestBody.mk "Owner deposit" None None None 1 None
                 [RequestLine.mk 1 "500.00" "0.00" None;
                  RequestLine.mk 7 "0" "500" None])
              (JournalEntryInput.mk "Owner deposit" None None None 1 None
                 [LineInput.mk 1 50000 0 None; LineInput.mk 7 0 50000 None])
              seeded_db 0)
    as (je & st' & lines & Hpost & Hnumber & Hstatus & _ & Hj & _);
    [vm_compute; reflexivity
    | vm_compute; reflexivity
    | vm_compute; reflexivity
    | vm_compute; reflexivity
    | exact journal_numbered_seeded
    | vm_compute; discriminate
    | vm_compute; discriminate |].
  assert (Hj0 : journalEntries seeded_db = []) by (vm_compute; reflexivity).
  rewrite Hj0 in Hj.
  exists je, st'. split; [exact Hpost|]. split; [exact Hnumber|].
  split; [exact Hstatus | exact Hj].
Defined.
